(** * Origyn: the OEM identification pipeline

    A shallow embedding of the five workflow nodes
    ([translating_agent_node], [web_search_agent_node],
    [synthesize_oem_info_node], [parse_llm_output_node],
    [vector_search_agent_node]), of the linear graph that [OEMWorkflow]
    builds from them, and of [OEMResult.from_state].

    The external services (translation, web search, chat completion, the
    output parser, the vector store) are fields of an [Env] record: each is
    a function giving the outcome of the call, a value or a raised
    exception with its [str(e)] text.  Every call a node makes and every
    [logger.warning] / [logger.error] line it writes is recorded, in order,
    in a list of events next to the state it returns ([logger.info] and
    [logger.debug] progress lines are not recorded). *)

From Stdlib Require Import String Ascii List Bool ZArith Lia DecimalString.
From Stdlib Require DecimalNat DecimalFacts.
Import ListNotations.
Open Scope string_scope.

(** ** Python values *)

(** What a key of the state dict can hold: the key is not in the dict, the
    key maps to [None], or the key maps to a value. *)
Inductive slot (A : Type) : Type :=
| Missing
| PyNone
| Val (a : A).
Arguments Missing {A}.
Arguments PyNone {A}.
Arguments Val {A} a.

(** [state.get(k)]: [None] for a missing key. *)
Definition get {A : Type} (s : slot A) : option A :=
  match s with
  | Val a => Some a
  | _ => None
  end.

(** Storing the result of a [state.get(k)] back under a key. *)
Definition store {A : Type} (v : option A) : slot A :=
  match v with
  | Some a => Val a
  | None => PyNone
  end.

(** [bool(v)] for an [Optional[str]]: [None] and the empty string are false. *)
Definition truthy (v : option string) : bool :=
  match v with
  | Some s => negb (s =? EmptyString)
  | None => false
  end.

(** [v is None]. *)
Definition is_None {A : Type} (v : option A) : bool :=
  match v with
  | Some _ => false
  | None => true
  end.

(** [str(v)], as an f-string renders an [Optional[str]]. *)
Definition py_str (v : option string) : string :=
  match v with
  | Some s => s
  | None => "None"
  end.

(** [a or b] where [a] is an [Optional[str]] and [b] a string. *)
Definition py_or (a : option string) (b : string) : string :=
  match a with
  | Some s => if s =? EmptyString then b else s
  | None => b
  end.

(** [d.get(k, default)] on an optional entry. *)
Definition get_default {A : Type} (v : option A) (default : A) : A :=
  match v with
  | Some a => a
  | None => default
  end.

(** [needle in hay] on strings. *)
Fixpoint str_contains (needle hay : string) : bool :=
  String.prefix needle hay
  || match hay with
     | EmptyString => false
     | String _ rest => str_contains needle rest
     end.

(** The line feed of the f-strings. *)
Definition nl : string := String (ascii_of_nat 10) EmptyString.

(** [str(i)] for the counter of [enumerate]. *)
Definition str_nat (n : nat) : string := NilZero.string_of_uint (Nat.to_uint n).

(** A value of a Chroma metadata entry: text or an integer (the store also
    admits floats and booleans, which are left out). *)
Inductive pyval : Type :=
| PStr (s : string)
| PInt (z : Z).

(** ** models.py *)

Module OEMOutput.
Record t : Type := mk { oem : string; part_category : string }.
End OEMOutput.

Module PartInfoState.
(** [original_query] is the one key [run] always supplies; every other
    key may be missing, [None] or set. [unspsc_code] and [unspsc_family]
    hold whatever the vector store's metadata held. *)
Record t : Type := mk {
  original_query : string;
  translated_query : slot string;
  search_results : slot string;
  llm_response_json : slot string;
  parsed_oem_info : slot OEMOutput.t;
  unspsc_family : slot pyval;
  unspsc_code : slot pyval;
  error : slot string
}.

(** [{**state, "error": v}] and its siblings. *)
Definition set_error (v : slot string) (s : t) : t :=
  mk (original_query s) (translated_query s) (search_results s)
     (llm_response_json s) (parsed_oem_info s) (unspsc_family s)
     (unspsc_code s) v.
Definition set_translated_query (v : slot string) (s : t) : t :=
  mk (original_query s) v (search_results s)
     (llm_response_json s) (parsed_oem_info s) (unspsc_family s)
     (unspsc_code s) (error s).
Definition set_search_results (v : slot string) (s : t) : t :=
  mk (original_query s) (translated_query s) v
     (llm_response_json s) (parsed_oem_info s) (unspsc_family s)
     (unspsc_code s) (error s).
Definition set_llm_response_json (v : slot string) (s : t) : t :=
  mk (original_query s) (translated_query s) (search_results s)
     v (parsed_oem_info s) (unspsc_family s)
     (unspsc_code s) (error s).
Definition set_parsed_oem_info (v : slot OEMOutput.t) (s : t) : t :=
  mk (original_query s) (translated_query s) (search_results s)
     (llm_response_json s) v (unspsc_family s)
     (unspsc_code s) (error s).
Definition set_unspsc_family (v : slot pyval) (s : t) : t :=
  mk (original_query s) (translated_query s) (search_results s)
     (llm_response_json s) (parsed_oem_info s) v
     (unspsc_code s) (error s).
Definition set_unspsc_code (v : slot pyval) (s : t) : t :=
  mk (original_query s) (translated_query s) (search_results s)
     (llm_response_json s) (parsed_oem_info s) (unspsc_family s)
     v (error s).
End PartInfoState.

(** The exception pydantic raises when a field of a model fails its type;
    it lists the fields at fault. *)
Inductive exn : Type :=
| ValidationError (fields : list string).

Inductive result (A : Type) : Type :=
| Ok (a : A)
| Raise (e : exn).
Arguments Ok {A} a.
Arguments Raise {A} e.

Module OEMResult.
Record t : Type := mk {
  original_query : string;
  oem : string;
  part_category : string;
  unspsc_code : string;
  unspsc_family : string
}.

(** What pydantic makes of an argument for a field declared [str]:
    a string passes, [None] and an integer do not. *)
Definition as_str (v : option pyval) : option string :=
  match v with
  | Some (PStr s) => Some s
  | _ => None
  end.

(** [state.get(k, "NA")]: the default only stands in for a missing key. *)
Definition get_or_NA (s : slot pyval) : option pyval :=
  match s with
  | Missing => Some (PStr "NA")
  | PyNone => None
  | Val v => Some v
  end.

Definition from_state (state : PartInfoState.t) : result t :=
  let oem_info := get (PartInfoState.parsed_oem_info state) in
  let oem_arg :=
    match oem_info with Some i => OEMOutput.oem i | None => "NA" end in
  let part_category_arg :=
    match oem_info with Some i => OEMOutput.part_category i | None => "NA" end in
  let code_arg := get_or_NA (PartInfoState.unspsc_code state) in
  let family_arg := get_or_NA (PartInfoState.unspsc_family state) in
  match as_str code_arg, as_str family_arg with
  | Some code, Some family =>
      Ok (mk (PartInfoState.original_query state) oem_arg part_category_arg
             code family)
  | None, Some _ => Raise (ValidationError ["unspsc_code"])
  | Some _, None => Raise (ValidationError ["unspsc_family"])
  | None, None => Raise (ValidationError ["unspsc_code"; "unspsc_family"])
  end.
End OEMResult.

(** ** Effects: calls made and lines logged *)

Inductive Level : Type := WARNING | ERROR.

Inductive Provider : Type :=
| TranslateClient   (* get_service_account_path, Client.from_service_account_json *)
| DetectLanguage    (* translate_client.detect_language *)
| Translate         (* translate_client.translate *)
| GoogleSearch      (* requests.get, raise_for_status, response.json *)
| LLMClient         (* LLMAgent() *)
| Completion        (* llm_agent.generate_completion *)
| OutputParser      (* PydanticOutputParser.parse *)
| VectorStore       (* get_vectordb_path, VectorSearchAgent(vectordb_path) *)
| VectorQuery.      (* agent.search *)

Inductive Event : Type :=
| Log (lvl : Level) (msg : string)
| Invoke (p : Provider) (arg : string).

(** A computation that returns a value and the events it caused. *)
Definition Eff (A : Type) : Type := (A * list Event)%type.

Definition ret {A : Type} (a : A) : Eff A := (a, []).

Definition bind {A B : Type} (m : Eff A) (f : A -> Eff B) : Eff B :=
  let (a, l1) := m in
  let (b, l2) := f a in
  (b, (l1 ++ l2)%list).

Definition log (lvl : Level) (msg : string) : Eff unit := (tt, [Log lvl msg]).

(** The outcome of a call that may raise; [msg] is [str(e)]. *)
Inductive outcome (A : Type) : Type :=
| Returns (a : A)
| Raises (msg : string).
Arguments Returns {A} a.
Arguments Raises {A} msg.

(** The body of a [try]: it stops at the first call that raises. *)
Definition Try (A : Type) : Type := Eff (outcome A).

Definition try_ret {A : Type} (a : A) : Try A := (Returns a, []).

Definition try_bind {A B : Type} (m : Try A) (f : A -> Try B) : Try B :=
  match m with
  | (Returns a, l1) => let (b, l2) := f a in (b, (l1 ++ l2)%list)
  | (Raises e, l1) => (Raises e, l1)
  end.

Definition call {A : Type} (p : Provider) (arg : string) (r : outcome A) : Try A :=
  (r, [Invoke p arg]).

(** A log line inside a [try] body. *)
Definition try_log (lvl : Level) (msg : string) : Try unit :=
  (Returns tt, [Log lvl msg]).

(** [try: body / except Exception as e: handler(str(e))]. *)
Definition try_except {A : Type} (body : Try A) (handler : string -> Eff A) : Eff A :=
  match body with
  | (Returns a, l1) => (a, l1)
  | (Raises e, l1) => let (a, l2) := handler e in (a, (l1 ++ l2)%list)
  end.

Declare Scope eff_scope.
Delimit Scope eff_scope with eff.
Notation "x <- m ;; k" := (bind m (fun x => k))
  (at level 61, m at next level, right associativity) : eff_scope.
Notation "m ;; k" := (bind m (fun _ => k))
  (at level 61, right associativity) : eff_scope.
Notation "x <-! m ;; k" := (try_bind m (fun x => k))
  (at level 61, m at next level, right associativity) : eff_scope.
Notation "m ;;! k" := (try_bind m (fun _ => k))
  (at level 61, right associativity) : eff_scope.
Open Scope eff_scope.

(** ** The external services *)

(** An entry of the [items] list of a Custom Search response. *)
Record SearchItem : Type := {
  title : option string;
  link : option string;
  snippet : option string
}.

(** The metadata of one hit, as [setup_vectordb.py] writes it. *)
Record Metadata : Type := {
  family : option pyval;
  family_title : option pyval;
  description : option pyval
}.

(** What [collection.query] returns: [metadatas] holds one list of hits per
    query embedding. *)
Record QueryResult : Type := {
  metadatas : option (list (list Metadata))
}.

Record Env : Type := {
  translate_client : outcome unit;
  detect_language : string -> outcome string;
  translate : string -> outcome string;
  (** [search_data.get("items")] of the response for the query [q]. *)
  google_search : string -> outcome (option (list SearchItem));
  llm_client : outcome unit;
  (** [chat_completion.choices[0].message.content], which may be [None]. *)
  generate_completion : string -> outcome (option string);
  model_dump_json : OEMOutput.t -> string;
  parser_parse : string -> outcome OEMOutput.t;
  vector_store : outcome unit;
  (** [agent.search(query)]; [None] stands for a result that is falsy. *)
  agent_search : string -> outcome (option QueryResult)
}.

Import PartInfoState.

(** ** agents/translation_agent.py *)

Definition translating_agent_node (env : Env) (state : PartInfoState.t)
  : Eff PartInfoState.t :=
  let text := original_query state in
  try_except
    (_ <-! call TranslateClient EmptyString (translate_client env) ;;
     text_language <-! call DetectLanguage text (detect_language env text) ;;
     translated_text <-!
       (if negb (text_language =? "en")
        then call Translate text (translate env text)
        else try_ret text) ;;
     try_ret (set_error PyNone (set_translated_query (Val translated_text) state)))
    (fun e =>
       let error_msg := "Translation error: " ++ e in
       log ERROR error_msg ;;
       ret (set_error (Val error_msg) state)).

(** ** agents/search_agent.py *)

Definition format_item (i : nat) (item : SearchItem) : string :=
  "Result " ++ str_nat i ++ ":" ++ nl
  ++ "Title: " ++ get_default (title item) "N/A" ++ nl
  ++ "URL: " ++ get_default (link item) "N/A" ++ nl
  ++ "Snippet: " ++ get_default (snippet item) "N/A" ++ nl ++ nl.

(** The loop over [enumerate(items, i)]. *)
Fixpoint format_items (i : nat) (items : list SearchItem) : string :=
  match items with
  | [] => EmptyString
  | item :: rest => format_item i item ++ format_items (S i) rest
  end.

Definition format_results (part_query : string)
  (items : option (list SearchItem)) : Eff string :=
  let formatted_results :=
    "Search results for part query: " ++ part_query ++ nl ++ nl in
  match items with
  | Some (item :: rest) =>
      ret (formatted_results ++ format_items 1 (item :: rest))
  | _ =>
      log WARNING "No search results found" ;;
      ret (formatted_results ++ "No search results found.")
  end.

Definition web_search_agent_node (env : Env) (state : PartInfoState.t)
  : Eff PartInfoState.t :=
  if truthy (get (error state)) then
    log WARNING ("Skipping search due to previous error: "
                 ++ py_str (get (error state))) ;;
    ret state
  else
    let part_query := get (translated_query state) in
    if negb (truthy part_query) then
      let error_msg := "No translated query available for search." in
      log ERROR error_msg ;;
      ret (set_error (Val error_msg) state)
    else
      let part_query := py_str part_query in
      try_except
        (let query := part_query ++ " manufacturer" in
         items <-! call GoogleSearch query (google_search env query) ;;
         let (formatted_results, logged) := format_results part_query items in
         (Returns (set_error PyNone
                     (set_search_results (Val formatted_results) state)),
          logged))
        (fun e =>
           let error_msg := "Search error: " ++ e in
           log ERROR error_msg ;;
           ret (set_error (Val error_msg)
                  (set_search_results (Val ("Error performing search: " ++ e))
                     state))).

(** ** agents/llm_agent.py *)

Definition na_output : OEMOutput.t := OEMOutput.mk "NA" "NA".

Definition synthesize_oem_info_node (env : Env) (state : PartInfoState.t)
  : Eff PartInfoState.t :=
  if truthy (get (error state)) then
    log WARNING ("Skipping synthesis due to previous error: "
                 ++ py_str (get (error state))) ;;
    ret state
  else
    let search_results_content := get (search_results state) in
    if negb (truthy search_results_content)
       || str_contains "Error performing search" (py_str search_results_content)
       || str_contains "No search results found" (py_str search_results_content)
    then
      log WARNING "No valid search results for synthesis" ;;
      ret (set_error (Val "No valid search results for synthesis.")
             (set_parsed_oem_info (Val na_output)
                (set_llm_response_json (Val (model_dump_json env na_output))
                   state)))
    else
      let content := py_str search_results_content in
      try_except
        (_ <-! call LLMClient EmptyString (llm_client env) ;;
         llm_response <-! call Completion content (generate_completion env content) ;;
         try_ret (set_error PyNone
                    (set_llm_response_json (store llm_response) state)))
        (fun e =>
           let error_msg := "LLM synthesis error: " ++ e in
           log ERROR error_msg ;;
           ret (set_error (Val error_msg) state)).

(** The node's skip test. *)
Definition parse_skips (state : PartInfoState.t) : bool :=
  truthy (get (error state)) && is_None (get (llm_response_json state)).

Definition parse_llm_output_node (env : Env) (state : PartInfoState.t)
  : Eff PartInfoState.t :=
  if parse_skips state then
    log WARNING ("Skipping parsing due to previous error: "
                 ++ py_str (get (error state))) ;;
    ret state
  else
    let llm_json_response := get (llm_response_json state) in
    if negb (truthy llm_json_response) then
      let error_msg := "No LLM response to parse." in
      log ERROR error_msg ;;
      ret (set_error (Val error_msg) state)
    else
      let llm_json_response := py_str llm_json_response in
      try_except
        (parsed_data <-!
           call OutputParser llm_json_response (parser_parse env llm_json_response) ;;
         try_ret (set_error (store (get (error state)))
                    (set_parsed_oem_info (Val parsed_data) state)))
        (fun e =>
           let error_msg :=
             "Parsing error: " ++ e ++ ". Original LLM response: "
             ++ llm_json_response in
           log ERROR error_msg ;;
           ret (set_error (Val error_msg) state)).

(** ** agents/vector_search_agent.py *)

(** [results['metadatas'][0][0]] when none of the three emptiness tests
    of the node fires. *)
Definition top_hit (results : option QueryResult) : option Metadata :=
  match results with
  | Some r =>
      match metadatas r with
      | Some ((hit :: _) :: _) => Some hit
      | _ => None
      end
  | None => None
  end.

(** [{**state, "unspsc_code": code, "unspsc_family": fam, "error": err}]. *)
Definition classified (code fam : pyval) (err : slot string)
  (state : PartInfoState.t) : PartInfoState.t :=
  set_error err (set_unspsc_family (Val fam) (set_unspsc_code (Val code) state)).

(** [state.get("parsed_oem_info").part_category if
    state.get("parsed_oem_info") else "na"]. *)
Definition extracted_part_category (state : PartInfoState.t) : string :=
  match get (parsed_oem_info state) with
  | Some info => OEMOutput.part_category info
  | None => "na"
  end.

(** The node's skip test. *)
Definition vector_search_skips (state : PartInfoState.t) : bool :=
  truthy (get (error state)) && is_None (get (parsed_oem_info state)).

(** The body of the node's [try]. *)
Definition vector_search_body (env : Env) (state : PartInfoState.t)
  : Try PartInfoState.t :=
  _ <-! call VectorStore EmptyString (vector_store env) ;;
  let part_category := extracted_part_category state in
  if part_category =? "na" then
    try_log WARNING "No valid part category for vector search" ;;!
    try_ret (classified (PStr "na") (PStr "na")
               (Val (py_or (get (error state)) "No valid part category")) state)
  else
    results <-! call VectorQuery part_category (agent_search env part_category) ;;
    match top_hit results with
    | None =>
        try_log WARNING "No vector search results found" ;;!
        try_ret (classified (PStr "na") (PStr "na")
                   (store (get (error state))) state)
    | Some hit =>
        let family_code := get_default (family hit) (PStr "na") in
        let family_title := get_default (family_title hit) (PStr "na") in
        try_ret (classified family_code family_title
                   (store (get (error state))) state)
    end.

Definition vector_search_agent_node (env : Env) (state : PartInfoState.t)
  : Eff PartInfoState.t :=
  if vector_search_skips state then
    log WARNING ("Skipping vector search due to previous error: "
                 ++ py_str (get (error state))) ;;
    ret state
  else
    try_except (vector_search_body env state)
      (fun e =>
         let error_msg := "Vector search error: " ++ e in
         log ERROR error_msg ;;
         ret (set_error (Val (py_or (get (error state)) error_msg)) state)).

(** ** workflows/workflow.py *)

(** The graph of [_build_workflow] is the chain translate, search,
    synthesize, parse_output, vector_search; every node returns the whole
    dict, so invoking the compiled graph composes the five nodes. A node
    is handed the dict as built so far: a key no node has written yet is
    missing from it, as in the [inputs] that [run] passes. *)
Definition invoke (env : Env) (inputs : PartInfoState.t) : Eff PartInfoState.t :=
  s1 <- translating_agent_node env inputs ;;
  s2 <- web_search_agent_node env s1 ;;
  s3 <- synthesize_oem_info_node env s2 ;;
  s4 <- parse_llm_output_node env s3 ;;
  vector_search_agent_node env s4.

(** [{"original_query": part_query}]. *)
Definition inputs (part_query : string) : PartInfoState.t :=
  PartInfoState.mk part_query Missing Missing Missing Missing Missing Missing Missing.

Definition run (env : Env) (part_query : string) : Eff (result OEMResult.t) :=
  final_state <- invoke env (inputs part_query) ;;
  (if truthy (get (error final_state))
   then log WARNING ("Workflow completed with error: "
                     ++ py_str (get (error final_state)))
   else ret tt) ;;
  ret (OEMResult.from_state final_state).

(** The five nodes in the order of the graph's edges, numbered from 1. *)
Definition node (stage : nat) : Env -> PartInfoState.t -> Eff PartInfoState.t :=
  match stage with
  | 1 => translating_agent_node
  | 2 => web_search_agent_node
  | 3 => synthesize_oem_info_node
  | 4 => parse_llm_output_node
  | 5 => vector_search_agent_node
  | _ => fun _ state => ret state
  end.

(** The Record after [stage] nodes of a run have returned: the initial
    Record for 0, the final one from 5 on. *)
Fixpoint after (env : Env) (part_query : string) (stage : nat) : PartInfoState.t :=
  match stage with
  | 0 => inputs part_query
  | S k => fst (node (S k) env (after env part_query k))
  end.

Arguments after : simpl never.

(** What node [stage] of a run calls and logs. *)
Definition events (env : Env) (part_query : string) (stage : nat) : list Event :=
  snd (node stage env (after env part_query (pred stage))).

(** ** Sample environments *)

Module Samples.

Definition dq : string := String (ascii_of_nat 34) EmptyString.

(** pydantic's compact dump of an [OEMOutput] (no character of the two
    fields needs escaping in the samples). *)
Definition dump_json (o : OEMOutput.t) : string :=
  "{" ++ dq ++ "oem" ++ dq ++ ":" ++ dq ++ OEMOutput.oem o ++ dq ++ ","
  ++ dq ++ "part_category" ++ dq ++ ":" ++ dq ++ OEMOutput.part_category o
  ++ dq ++ "}".

Definition skf_output : OEMOutput.t := OEMOutput.mk "skf" "bearings".

(** A parser that knows the two documents of the samples and rejects
    everything else. *)
Definition sample_parse (raw : string) : outcome OEMOutput.t :=
  if raw =? dump_json skf_output then Returns skf_output
  else if raw =? dump_json na_output then Returns na_output
  else Raises "Invalid json output".

Definition snippets : list SearchItem :=
  [ {| title := Some "SKF 6205 deep groove ball bearing";
       link := Some "https://www.skf.com/6205";
       snippet := Some "Deep groove ball bearing 6205 by SKF" |};
    {| title := Some "6205 bearing";
       link := Some "https://example.org/6205";
       snippet := None |};
    {| title := Some "SKF catalogue";
       link := Some "https://example.org/skf";
       snippet := Some "SKF rolling bearings" |} ].

Definition bearings_hit : Metadata :=
  {| family := Some (PStr "31");
     family_title := Some (PStr "bearings and bearing devices");
     description := Some (PStr "bearings") |}.

Definition hits (l : list Metadata) : outcome (option QueryResult) :=
  Returns (Some {| metadatas := Some [l] |}).

(** Every service answers: the query is English, three snippets come
    back, the model names SKF, the index knows bearings. *)
Definition env_ok : Env :=
  {| translate_client := Returns tt;
     detect_language := fun _ => Returns "en";
     translate := fun text => Returns text;
     google_search := fun _ => Returns (Some snippets);
     llm_client := Returns tt;
     generate_completion := fun _ => Returns (Some (dump_json skf_output));
     model_dump_json := dump_json;
     parser_parse := sample_parse;
     vector_store := Returns tt;
     agent_search := fun _ => hits [bearings_hit] |}.

Definition with_google_search
  (f : string -> outcome (option (list SearchItem))) (env : Env) : Env :=
  {| translate_client := translate_client env;
     detect_language := detect_language env;
     translate := translate env;
     google_search := f;
     llm_client := llm_client env;
     generate_completion := generate_completion env;
     model_dump_json := model_dump_json env;
     parser_parse := parser_parse env;
     vector_store := vector_store env;
     agent_search := agent_search env |}.

Definition with_generate_completion
  (f : string -> outcome (option string)) (env : Env) : Env :=
  {| translate_client := translate_client env;
     detect_language := detect_language env;
     translate := translate env;
     google_search := google_search env;
     llm_client := llm_client env;
     generate_completion := f;
     model_dump_json := model_dump_json env;
     parser_parse := parser_parse env;
     vector_store := vector_store env;
     agent_search := agent_search env |}.

Definition with_vector_store (r : outcome unit) (env : Env) : Env :=
  {| translate_client := translate_client env;
     detect_language := detect_language env;
     translate := translate env;
     google_search := google_search env;
     llm_client := llm_client env;
     generate_completion := generate_completion env;
     model_dump_json := model_dump_json env;
     parser_parse := parser_parse env;
     vector_store := r;
     agent_search := agent_search env |}.

Definition with_agent_search
  (f : string -> outcome (option QueryResult)) (env : Env) : Env :=
  {| translate_client := translate_client env;
     detect_language := detect_language env;
     translate := translate env;
     google_search := google_search env;
     llm_client := llm_client env;
     generate_completion := generate_completion env;
     model_dump_json := model_dump_json env;
     parser_parse := parser_parse env;
     vector_store := vector_store env;
     agent_search := f |}.

(** The search request times out. *)
Definition env_search_down : Env :=
  with_google_search (fun _ => Raises "Read timed out.") env_ok.

(** The search answers with no item. *)
Definition env_no_results : Env :=
  with_google_search (fun _ => Returns None) env_ok.

(** The model answers with text that is no JSON document. *)
Definition env_malformed : Env :=
  with_generate_completion (fun _ => Returns (Some "The OEM is SKF.")) env_ok.

(** The index has no neighbour. *)
Definition env_no_neighbors : Env :=
  with_agent_search (fun _ => hits []) env_ok.

(** The top hit carries a family code and no family title. *)
Definition env_untitled_hit : Env :=
  with_agent_search
    (fun _ => hits [ {| family := Some (PStr "31");
                        family_title := None;
                        description := None |} ])
    env_ok.

(** The family code was stored as a number, as pandas reads a numeric
    CSV column. *)
Definition env_numeric_family : Env :=
  with_agent_search
    (fun _ => hits [ {| family := Some (PInt 31);
                        family_title := Some (PStr "bearings and bearing devices");
                        description := None |} ])
    env_ok.

(** The vector store cannot be opened. *)
Definition env_store_down : Env :=
  with_vector_store (Raises "VECTORDB_PATH is not set in the environment variables.")
    env_ok.

End Samples.


(** ** Vocabulary of the statements *)

(** A taxonomy field the Assembler accepts: a missing key or a string. *)
Definition text_slot (s : slot pyval) : bool :=
  match s with
  | Missing => true
  | Val (PStr _) => true
  | _ => false
  end.

(** What the Assembler shows for such a field. *)
Definition shown (s : slot pyval) : string :=
  match s with
  | Val (PStr text) => text
  | _ => "NA"
  end.

(** The line a node logs when it skips. *)
Definition skip_line (what : string) (state : PartInfoState.t) : Event :=
  Log WARNING ("Skipping " ++ what ++ " due to previous error: "
               ++ py_str (get (error state))).

(** The line the classification stage logs when the vector store raises. *)
Definition vector_error_line (e : string) : Event :=
  Log ERROR ("Vector search error: " ++ e).

(** A Record the model answered with the lowercase marker for: no error,
    category ["na"]. *)
Definition answered_na : PartInfoState.t :=
  PartInfoState.mk "SKF 6205" (Val "SKF 6205") (Val "Search results")
    (Val (Samples.dump_json (OEMOutput.mk "na" "na")))
    (Val (OEMOutput.mk "na" "na")) Missing Missing PyNone.

(** The synthesis node's test for search results it cannot use. *)
Definition no_valid_search_results (s : PartInfoState.t) : bool :=
  negb (truthy (get (search_results s)))
  || str_contains "Error performing search" (py_str (get (search_results s)))
  || str_contains "No search results found" (py_str (get (search_results s))).

(** The message the parsing stage records when the parser raises. *)
Definition parsing_error (e raw : string) : string :=
  "Parsing error: " ++ e ++ ". Original LLM response: " ++ raw.

(** ** Vocabulary of the further properties *)

(** The stage whose node makes a call to the provider. *)
Definition stage_of (p : Provider) : nat :=
  match p with
  | TranslateClient | DetectLanguage | Translate => 1
  | GoogleSearch => 2
  | LLMClient | Completion => 3
  | OutputParser => 4
  | VectorStore | VectorQuery => 5
  end.

Definition is_invoke (p : Provider) (e : Event) : bool :=
  match e with
  | Invoke p' _ =>
      match p, p' with
      | TranslateClient, TranslateClient
      | DetectLanguage, DetectLanguage
      | Translate, Translate
      | GoogleSearch, GoogleSearch
      | LLMClient, LLMClient
      | Completion, Completion
      | OutputParser, OutputParser
      | VectorStore, VectorStore
      | VectorQuery, VectorQuery => true
      | _, _ => false
      end
  | Log _ _ => false
  end.

(** How many times a list of events calls the provider. *)
Definition invocations (p : Provider) (l : list Event) : nat :=
  length (filter (is_invoke p) l).

(** A Record with a hard failure: an error and nothing to parse or to
    classify. *)
Definition halted (s : PartInfoState.t) : bool :=
  truthy (get (error s))
  && is_None (get (llm_response_json s))
  && is_None (get (parsed_oem_info s)).

(** The name a node gives its work in its skip line. *)
Definition skip_name (stage : nat) : string :=
  match stage with
  | 2 => "search"
  | 3 => "synthesis"
  | 4 => "parsing"
  | _ => "vector search"
  end.

(** Everything a run calls and logs, up to the final Record. *)
Definition run_events (env : Env) (q : string) : list Event :=
  snd (invoke env (inputs q)).

(** ** config.py *)

Module Config.

(** The module's constants, as [os.getenv] read them at import. *)
Record t : Type := mk {
  LLM_MODEL : string;
  LLM_API_KEY : option string;
  GOOGLE_API_KEY : option string;
  GOOGLE_CX : option string;
  GOOGLE_SERVICE_ACCOUNT_PATH : option string;
  VECTORDB_PATH : option string
}.

Definition get_service_account_path (c : t) : outcome string :=
  let service_account_path := GOOGLE_SERVICE_ACCOUNT_PATH c in
  if negb (truthy service_account_path) then
    Raises "GOOGLE_SERVICE_ACCOUNT_PATH is not set in the environment variables."
  else Returns (py_str service_account_path).

Definition get_vectordb_path (c : t) : outcome string :=
  let vectordb_path := VECTORDB_PATH c in
  if negb (truthy vectordb_path) then
    Raises "VECTORDB_PATH is not set in the environment variables."
  else Returns (py_str vectordb_path).

Definition required_vars (c : t) : list (string * option string) :=
  [ ("LLM_API_KEY", LLM_API_KEY c);
    ("GOOGLE_API_KEY", GOOGLE_API_KEY c);
    ("GOOGLE_CX", GOOGLE_CX c);
    ("GOOGLE_SERVICE_ACCOUNT_PATH", GOOGLE_SERVICE_ACCOUNT_PATH c);
    ("VECTORDB_PATH", VECTORDB_PATH c) ].

(** [[name for name, value in required_vars if not value]]. *)
Definition missing_vars (c : t) : list string :=
  map fst (filter (fun nv => negb (truthy (snd nv))) (required_vars c)).

Definition validate_config (c : t) : outcome bool :=
  match missing_vars c with
  | [] => Returns true
  | _ :: _ =>
      Raises ("Missing required environment variables: "
              ++ String.concat ", " (missing_vars c))
  end.

End Config.

(** ** scripts/setup_vectordb.py *)

Module SetupVectordb.

(** A row of the UNSPSC table as [load_unspsc_codes] returns it: the
    columns [family] and [family_title] are there (the loader checked),
    [description] is read with [.get]. *)
Record Row : Type := {
  row_family : pyval;
  row_family_title : pyval;
  row_description : option pyval
}.

(** [str(v)] for a cell of the table. *)
Definition str_pyval (v : pyval) : string :=
  match v with
  | PStr s => s
  | PInt z => NilZero.string_of_int (Z.to_int z)
  end.

(** [item.get('description', '')]. *)
Definition description_of (item : Row) : pyval :=
  get_default (row_description item) (PStr EmptyString).

Definition doc_text (item : Row) : string :=
  str_pyval (row_family_title item) ++ " - " ++ str_pyval (description_of item).

Definition metadata_of (item : Row) : Metadata :=
  {| family := Some (row_family item);
     family_title := Some (row_family_title item);
     description := Some (description_of item) |}.

(** [l[i:j]]. *)
Definition slice {A : Type} (l : list A) (i j : nat) : list A :=
  firstn (j - i) (skipn i l).

(** [range(start, stop, step)] for a positive step; [fuel] bounds the
    number of elements. *)
Fixpoint range_from (fuel start stop step : nat) : list nat :=
  match fuel with
  | 0 => []
  | S fuel' =>
      if Nat.ltb start stop
      then start :: range_from fuel' (start + step) stop step
      else []
  end.

Definition batch_size : nat := 100.

(** [range(0, stop, batch_size)]. *)
Definition batch_starts (stop : nat) : list nat :=
  range_from stop 0 stop batch_size.

(** The arguments of one [collection.add]. *)
Record AddCall (E : Type) : Type := {
  add_ids : list string;
  add_documents : list string;
  add_metadatas : list Metadata;
  add_embeddings : E
}.
Arguments add_ids {E} a.
Arguments add_documents {E} a.
Arguments add_metadatas {E} a.
Arguments add_embeddings {E} a.

(** The lists [create_vectordb] prepares from the rows. *)
Definition prepared_ids (unspsc_data : list Row) : list string :=
  map str_nat (seq 0 (length unspsc_data)).
Definition prepared_documents (unspsc_data : list Row) : list string :=
  map doc_text unspsc_data.
Definition prepared_metadatas (unspsc_data : list Row) : list Metadata :=
  map metadata_of unspsc_data.

(** The successive [collection.add] calls of [create_vectordb], none of
    them raising; [encode] is the embedding model. *)
Definition add_calls {E : Type} (encode : list string -> E)
  (unspsc_data : list Row) : list (AddCall E) :=
  let ids := prepared_ids unspsc_data in
  let documents := prepared_documents unspsc_data in
  let metadatas := prepared_metadatas unspsc_data in
  map (fun i =>
         let batch_ids := slice ids i (i + batch_size) in
         let batch_docs := slice documents i (i + batch_size) in
         let batch_meta := slice metadatas i (i + batch_size) in
         {| add_ids := batch_ids;
            add_documents := batch_docs;
            add_metadatas := batch_meta;
            add_embeddings := encode batch_docs |})
      (batch_starts (length documents)).

End SetupVectordb.

(** ** cli.py *)

Module Cli.










End Cli.

(** ** Further sample environments *)

Module MoreSamples.

(** The translation client cannot be built. *)
Definition env_translate_down : Env :=
  {| translate_client :=
       Raises "GOOGLE_SERVICE_ACCOUNT_PATH is not set in the environment variables.";
     detect_language := detect_language Samples.env_ok;
     translate := translate Samples.env_ok;
     google_search := google_search Samples.env_ok;
     llm_client := llm_client Samples.env_ok;
     generate_completion := generate_completion Samples.env_ok;
     model_dump_json := model_dump_json Samples.env_ok;
     parser_parse := parser_parse Samples.env_ok;
     vector_store := vector_store Samples.env_ok;
     agent_search := agent_search Samples.env_ok |}.

(** The completion request is refused. *)
Definition env_llm_down : Env :=
  Samples.with_generate_completion (fun _ => Raises "Rate limit reached")
    Samples.env_ok.

(** The query is French and the provider translates it. *)
Definition env_french : Env :=
  {| translate_client := Returns tt;
     detect_language := fun _ => Returns "fr";
     translate := fun _ => Returns "ball bearing 6205";
     google_search := google_search Samples.env_ok;
     llm_client := llm_client Samples.env_ok;
     generate_completion := generate_completion Samples.env_ok;
     model_dump_json := model_dump_json Samples.env_ok;
     parser_parse := parser_parse Samples.env_ok;
     vector_store := vector_store Samples.env_ok;
     agent_search := agent_search Samples.env_ok |}.

End MoreSamples.

(** ** Vocabulary for [main] *)





Definition text_row : SetupVectordb.Row :=
  {| SetupVectordb.row_family := PStr "31";
     SetupVectordb.row_family_title := PStr "bearings and bearing devices";
     SetupVectordb.row_description := Some (PStr "bearings") |}.



(** * Properties *)

(** ** Strings and Python truth *)

Lemma prefix_refl (s : string) : String.prefix s s = true.
Proof.
  induction s as [|c s IH]; simpl; [reflexivity|].
  destruct (ascii_dec c c); [exact IH | congruence].
Qed.

Lemma str_contains_prefix (needle hay : string) :
  String.prefix needle hay = true -> str_contains needle hay = true.
Proof.
  intros H. destruct hay; unfold str_contains; fold str_contains;
    rewrite H; reflexivity.
Qed.

Lemma str_contains_refl (s : string) : str_contains s s = true.
Proof. apply str_contains_prefix, prefix_refl. Qed.

(** A text occurs in whatever ends with it. *)
Lemma str_contains_suffix (needle before : string) :
  str_contains needle (before ++ needle) = true.
Proof.
  induction before as [|c before IH]; simpl.
  - apply str_contains_refl.
  - rewrite IH. apply orb_true_r.
Qed.

(** A text that occurs in [hay] occurs in [before ++ hay]. *)
Lemma str_contains_app_r (needle before hay : string) :
  str_contains needle hay = true ->
  str_contains needle (before ++ hay) = true.
Proof.
  intros H. induction before as [|c before IH]; simpl; [exact H|].
  rewrite IH. apply orb_true_r.
Qed.

Lemma truthy_Some (s : string) : truthy (Some s) = true -> s <> EmptyString.
Proof.
  simpl. destruct (String.eqb_spec s EmptyString); [discriminate | auto].
Qed.

Lemma truthy_get {s : slot string} :
  truthy (get s) = true -> exists text, s = Val text /\ text <> EmptyString.
Proof.
  destruct s as [| |text]; simpl; try discriminate.
  intros H. exists text. split; [reflexivity | now apply truthy_Some].
Qed.

Lemma py_or_truthy (a : option string) (b : string) :
  truthy a = true -> Some (py_or a b) = a.
Proof.
  destruct a as [s|]; simpl; [|discriminate].
  destruct (s =? EmptyString); [discriminate | reflexivity].
Qed.

Lemma py_or_falsy (a : option string) (b : string) :
  truthy a = false -> py_or a b = b.
Proof.
  destruct a as [s|]; simpl; [|reflexivity].
  destruct (s =? EmptyString); [reflexivity | discriminate].
Qed.

(** ** The runner *)

Lemma fst_bind {A B : Type} (m : Eff A) (f : A -> Eff B) :
  fst (bind m f) = fst (f (fst m)).
Proof. unfold bind. destruct m as [a l1]. simpl. now destruct (f a). Qed.

Lemma snd_bind {A B : Type} (m : Eff A) (f : A -> Eff B) :
  snd (bind m f) = (snd m ++ snd (f (fst m)))%list.
Proof. unfold bind. destruct m as [a l1]. simpl. now destruct (f a). Qed.

Lemma invoke_after (env : Env) (q : string) :
  fst (invoke env (inputs q)) = after env q 5.
Proof. unfold invoke. rewrite !fst_bind. reflexivity. Qed.

Lemma invoke_events (env : Env) (q : string) :
  snd (invoke env (inputs q))
  = (events env q 1 ++ events env q 2 ++ events env q 3
     ++ events env q 4 ++ events env q 5)%list.
Proof.
  unfold invoke, events.
  repeat (first [rewrite snd_bind | rewrite fst_bind]; cbv beta).
  reflexivity.
Qed.

Lemma run_result (env : Env) (q : string) :
  fst (run env q) = OEMResult.from_state (after env q 5).
Proof.
  unfold run. rewrite fst_bind. cbv beta. rewrite fst_bind. cbv beta.
  rewrite invoke_after. reflexivity.
Qed.

(** ** What each node leaves alone *)

Ltac eff_unfold :=
  unfold try_except, try_bind, bind, call, ret, log, try_ret, try_log,
    format_results, classified in *.

(** Case analysis on the innermost scrutinee first: a service's outcome,
    a field of the state, a test on a string. *)
Ltac case_split :=
  repeat match goal with
         | |- context [match ?x with _ => _ end] =>
             lazymatch x with
             | context [match _ with _ => _ end] => fail
             | _ => destruct x eqn:?; simpl
             end
         end.

(** Unfolds a node, follows each of its branches and closes the ones that
    [reflexivity] settles. *)
Ltac node_frame :=
  cbv zeta; intros; eff_unfold; simpl; case_split; try reflexivity.

Section Frames.
Variable env : Env.
Variable s : PartInfoState.t.

Lemma translating_frame :
  let s' := fst (translating_agent_node env s) in
  original_query s' = original_query s
  /\ search_results s' = search_results s
  /\ llm_response_json s' = llm_response_json s
  /\ parsed_oem_info s' = parsed_oem_info s
  /\ unspsc_code s' = unspsc_code s
  /\ unspsc_family s' = unspsc_family s.
Proof. unfold translating_agent_node. node_frame; repeat split. Qed.

Lemma web_search_frame :
  let s' := fst (web_search_agent_node env s) in
  original_query s' = original_query s
  /\ translated_query s' = translated_query s
  /\ llm_response_json s' = llm_response_json s
  /\ parsed_oem_info s' = parsed_oem_info s
  /\ unspsc_code s' = unspsc_code s
  /\ unspsc_family s' = unspsc_family s.
Proof. unfold web_search_agent_node. node_frame; repeat split. Qed.

Lemma synthesize_frame :
  let s' := fst (synthesize_oem_info_node env s) in
  original_query s' = original_query s
  /\ translated_query s' = translated_query s
  /\ search_results s' = search_results s
  /\ unspsc_code s' = unspsc_code s
  /\ unspsc_family s' = unspsc_family s.
Proof. unfold synthesize_oem_info_node. node_frame; repeat split. Qed.

Lemma parse_frame :
  let s' := fst (parse_llm_output_node env s) in
  original_query s' = original_query s
  /\ translated_query s' = translated_query s
  /\ search_results s' = search_results s
  /\ llm_response_json s' = llm_response_json s
  /\ unspsc_code s' = unspsc_code s
  /\ unspsc_family s' = unspsc_family s.
Proof. unfold parse_llm_output_node, parse_skips. node_frame; repeat split. Qed.

Lemma vector_search_frame :
  let s' := fst (vector_search_agent_node env s) in
  original_query s' = original_query s
  /\ translated_query s' = translated_query s
  /\ search_results s' = search_results s
  /\ llm_response_json s' = llm_response_json s
  /\ parsed_oem_info s' = parsed_oem_info s.
Proof.
  unfold vector_search_agent_node, vector_search_body, vector_search_skips,
    extracted_part_category.
  node_frame; repeat split.
Qed.

Lemma node_original_query (stage : nat) :
  original_query (fst (node stage env s)) = original_query s.
Proof.
  destruct stage as [|[|[|[|[|[|stage]]]]]]; try reflexivity; simpl.
  - apply translating_frame.
  - apply web_search_frame.
  - apply synthesize_frame.
  - apply parse_frame.
  - apply vector_search_frame.
Qed.
End Frames.

Lemma after_S (env : Env) (q : string) (k : nat) :
  after env q (S k) = fst (node (S k) env (after env q k)).
Proof. reflexivity. Qed.

Lemma after_1 (env : Env) (q : string) :
  after env q 1 = fst (translating_agent_node env (inputs q)).
Proof. reflexivity. Qed.

Lemma after_2 (env : Env) (q : string) :
  after env q 2 = fst (web_search_agent_node env (after env q 1)).
Proof. reflexivity. Qed.

Lemma after_3 (env : Env) (q : string) :
  after env q 3 = fst (synthesize_oem_info_node env (after env q 2)).
Proof. reflexivity. Qed.

Lemma after_4 (env : Env) (q : string) :
  after env q 4 = fst (parse_llm_output_node env (after env q 3)).
Proof. reflexivity. Qed.

Lemma after_5 (env : Env) (q : string) :
  after env q 5 = fst (vector_search_agent_node env (after env q 4)).
Proof. reflexivity. Qed.

Lemma after_original_query (env : Env) (q : string) (stage : nat) :
  original_query (after env q stage) = q.
Proof.
  induction stage as [|k IH]; [reflexivity|].
  rewrite after_S, node_original_query. exact IH.
Qed.

(** Only the last node writes the taxonomy fields. *)
Lemma node_taxonomy_frame (env : Env) (s : PartInfoState.t) (stage : nat) :
  stage <> 5 ->
  unspsc_code (fst (node stage env s)) = unspsc_code s
  /\ unspsc_family (fst (node stage env s)) = unspsc_family s.
Proof.
  intros H.
  destruct stage as [|[|[|[|[|[|stage]]]]]]; try (split; reflexivity); simpl.
  - apply translating_frame.
  - apply web_search_frame.
  - apply synthesize_frame.
  - apply parse_frame.
  - congruence.
Qed.

Lemma after_taxonomy_missing (env : Env) (q : string) (stage : nat) :
  stage <= 4 ->
  unspsc_code (after env q stage) = Missing
  /\ unspsc_family (after env q stage) = Missing.
Proof.
  induction stage as [|k IH]; intros H; [split; reflexivity|].
  rewrite after_S.
  destruct (node_taxonomy_frame env (after env q k) (S k)) as [-> ->]; [lia|].
  apply IH. lia.
Qed.

Lemma after_final (env : Env) (q : string) (stage : nat) :
  5 <= stage -> after env q stage = after env q 5.
Proof.
  induction stage as [|k IH]; intros H; [lia|].
  destruct (Nat.eq_dec k 4) as [->|Hk]; [reflexivity|].
  rewrite after_S, <- IH by lia.
  destruct k as [|[|[|[|[|k]]]]]; try lia. reflexivity.
Qed.

(** Before the synthesis node nothing has written the model's answer or
    its parsed form. *)
Lemma node_unparsed_frame (env : Env) (s : PartInfoState.t) (stage : nat) :
  stage <= 2 ->
  llm_response_json (fst (node stage env s)) = llm_response_json s
  /\ parsed_oem_info (fst (node stage env s)) = parsed_oem_info s.
Proof.
  intros H. destruct stage as [|[|[|stage]]]; try lia; simpl.
  - split; reflexivity.
  - destruct (translating_frame env s) as (_ & _ & -> & -> & _).
    split; reflexivity.
  - destruct (web_search_frame env s) as (_ & _ & -> & -> & _).
    split; reflexivity.
Qed.

Lemma after_search_unparsed (env : Env) (q : string) (stage : nat) :
  stage <= 2 ->
  llm_response_json (after env q stage) = Missing
  /\ parsed_oem_info (after env q stage) = Missing.
Proof.
  induction stage as [|k IH]; intros H; [split; reflexivity|].
  rewrite after_S.
  destruct (node_unparsed_frame env (after env q k) (S k)) as [-> ->]; [lia|].
  apply IH. lia.
Qed.

(** ** The Output Assembler *)

Lemma from_state_text (state : PartInfoState.t) :
  text_slot (unspsc_code state) = true ->
  text_slot (unspsc_family state) = true ->
  OEMResult.from_state state
  = Ok (OEMResult.mk (original_query state)
          (match get (parsed_oem_info state) with
           | Some i => OEMOutput.oem i | None => "NA" end)
          (match get (parsed_oem_info state) with
           | Some i => OEMOutput.part_category i | None => "NA" end)
          (shown (unspsc_code state)) (shown (unspsc_family state))).
Proof.
  unfold OEMResult.from_state.
  destruct (unspsc_code state) as [| |[c|z]]; simpl; try discriminate;
    destruct (unspsc_family state) as [| |[f|z']]; simpl; try discriminate;
    reflexivity.
Qed.

Lemma from_state_original_query (state : PartInfoState.t) (r : OEMResult.t) :
  OEMResult.from_state state = Ok r ->
  OEMResult.original_query r = original_query state.
Proof.
  unfold OEMResult.from_state.
  destruct (OEMResult.as_str _), (OEMResult.as_str _); intros H;
    inversion H; reflexivity.
Qed.

(** C1. [OEMResult.from_state] is not total: on a Record whose
    [unspsc_code] and [unspsc_family] keys are present and hold [None]
    (what their declared type [Optional[str]] allows) the default of
    [state.get(k, "NA")] does not apply, [None] reaches two fields declared
    [str] and pydantic raises a [ValidationError]; and [run] itself raises
    when the index stored the family code as a number. *)
Theorem from_state_raises_on_None_taxonomy :
  OEMResult.from_state
    (PartInfoState.mk "SKF 6205" PyNone PyNone PyNone PyNone PyNone PyNone PyNone)
  = Raise (ValidationError ["unspsc_code"; "unspsc_family"])
  /\ fst (run Samples.env_numeric_family "SKF 6205")
     = Raise (ValidationError ["unspsc_code"]).
Proof. split; reflexivity. Qed.

(** C3. No node changes [original_query], so every Record of a run carries
    the query as given; the Assembler copies it, so a Result that [run]
    returns carries it too, and [run] does return one whenever the
    taxonomy fields of the final Record are missing or strings. *)
Theorem run_preserves_original_query (env : Env) (q : string) :
  (forall stage, original_query (after env q stage) = q)
  /\ (forall r, fst (run env q) = Ok r -> OEMResult.original_query r = q)
  /\ (text_slot (unspsc_code (after env q 5)) = true ->
      text_slot (unspsc_family (after env q 5)) = true ->
      exists r, fst (run env q) = Ok r /\ OEMResult.original_query r = q).
Proof.
  split; [|split].
  - intros stage. apply after_original_query.
  - intros r H. rewrite run_result in H.
    rewrite (from_state_original_query _ _ H). apply after_original_query.
  - intros Hc Hf. rewrite run_result, (from_state_text _ Hc Hf).
    eexists. split; [reflexivity|]. exact (after_original_query env q 5).
Qed.

(** The query reaches the Result with its spaces and case as typed. *)
Example run_keeps_spaces :
  fst (run Samples.env_ok "  skf 6205 ")
  = Ok (OEMResult.mk "  skf 6205 " "skf" "bearings" "31"
          "bearings and bearing devices").
Proof. reflexivity. Qed.

(** ** Skipping *)

Lemma synthesize_skip (env : Env) (s : PartInfoState.t) :
  truthy (get (error s)) = true ->
  synthesize_oem_info_node env s = (s, [skip_line "synthesis" s]).
Proof. intros H. unfold synthesize_oem_info_node. rewrite H. reflexivity. Qed.

Lemma parse_skip (env : Env) (s : PartInfoState.t) :
  parse_skips s = true ->
  parse_llm_output_node env s = (s, [skip_line "parsing" s]).
Proof. intros H. unfold parse_llm_output_node. rewrite H. reflexivity. Qed.

Lemma vector_search_skip (env : Env) (s : PartInfoState.t) :
  vector_search_skips s = true ->
  vector_search_agent_node env s = (s, [skip_line "vector search" s]).
Proof. intros H. unfold vector_search_agent_node. rewrite H. reflexivity. Qed.

(** ** The search stage *)

(** Closes a goal whose hypothesis puts a call among log lines only. *)
Ltac not_among_logs H :=
  simpl in H;
  repeat match type of H with
         | _ \/ _ => destruct H as [H|H]
         end;
  solve [discriminate H | contradiction H].

Lemma web_search_raises (env : Env) (s : PartInfoState.t) (query e : string) :
  In (Invoke GoogleSearch query) (snd (web_search_agent_node env s)) ->
  google_search env query = Raises e ->
  web_search_agent_node env s
  = (set_error (Val ("Search error: " ++ e))
       (set_search_results (Val ("Error performing search: " ++ e)) s),
     [Invoke GoogleSearch query; Log ERROR ("Search error: " ++ e)]).
Proof.
  unfold web_search_agent_node. intros Hin Hraise.
  destruct (truthy (get (error s))); [not_among_logs Hin|].
  destruct (negb (truthy (get (translated_query s)))); [not_among_logs Hin|].
  eff_unfold.
  destruct (google_search env (py_str (get (translated_query s)) ++ " manufacturer"))
    as [items|e'] eqn:Hcall.
  - exfalso. destruct items as [[|item rest]|]; simpl in Hin;
      (destruct Hin as [Hin|Hin]; [|not_among_logs Hin || contradiction Hin]);
      injection Hin as <-; congruence.
  - simpl in Hin. destruct Hin as [Hin|Hin]; [|not_among_logs Hin].
    injection Hin as <-. rewrite Hcall in Hraise. injection Hraise as ->.
    reflexivity.
Qed.

(** C2. When the search stage calls its provider and the call raises, the
    synthesis, parsing and classification stages each return the Record
    as they got it, writing only their skip line, and [run] returns the
    query with ["NA"] in the four other fields. *)
Theorem search_failure_gives_NA (env : Env) (q query e : string) :
  In (Invoke GoogleSearch query) (events env q 2) ->
  google_search env query = Raises e ->
  after env q 3 = after env q 2
  /\ after env q 4 = after env q 2
  /\ after env q 5 = after env q 2
  /\ events env q 3 = [skip_line "synthesis" (after env q 2)]
  /\ events env q 4 = [skip_line "parsing" (after env q 2)]
  /\ events env q 5 = [skip_line "vector search" (after env q 2)]
  /\ fst (run env q) = Ok (OEMResult.mk q "NA" "NA" "NA" "NA").
Proof.
  intros Hin Hraise.
  pose proof (web_search_raises env (after env q 1) query e Hin Hraise) as Hs.
  destruct (after_search_unparsed env q 2) as [Hllm Hparsed]; [lia|].
  destruct (after_taxonomy_missing env q 2) as [Hcode Hfam]; [lia|].
  assert (H2 : after env q 2
               = set_error (Val ("Search error: " ++ e))
                   (set_search_results (Val ("Error performing search: " ++ e))
                      (after env q 1))).
  { rewrite after_2, Hs. reflexivity. }
  assert (Herr : truthy (get (error (after env q 2))) = true).
  { rewrite H2. reflexivity. }
  assert (Hp : parse_skips (after env q 2) = true).
  { unfold parse_skips. now rewrite Herr, Hllm. }
  assert (Hv : vector_search_skips (after env q 2) = true).
  { unfold vector_search_skips. now rewrite Herr, Hparsed. }
  assert (H3 : after env q 3 = after env q 2).
  { now rewrite after_3, synthesize_skip. }
  assert (H4 : after env q 4 = after env q 2).
  { now rewrite after_4, H3, parse_skip. }
  assert (H5 : after env q 5 = after env q 2).
  { now rewrite after_5, H4, vector_search_skip. }
  repeat split; trivial.
  - change (events env q 3)
      with (snd (synthesize_oem_info_node env (after env q 2))).
    now rewrite synthesize_skip.
  - change (events env q 4)
      with (snd (parse_llm_output_node env (after env q 3))).
    now rewrite H3, parse_skip.
  - change (events env q 5)
      with (snd (vector_search_agent_node env (after env q 4))).
    now rewrite H4, vector_search_skip.
  - rewrite run_result, H5, from_state_text by (now rewrite ?Hcode, ?Hfam).
    rewrite Hparsed, Hcode, Hfam. simpl.
    now rewrite (after_original_query env q 2).
Qed.

Lemma search_failure_gives_NA_witness :
  In (Invoke GoogleSearch "SKF 6205 manufacturer")
     (events Samples.env_search_down "SKF 6205" 2)
  /\ google_search Samples.env_search_down "SKF 6205 manufacturer"
     = Raises "Read timed out."
  /\ fst (run Samples.env_search_down "SKF 6205")
     = Ok (OEMResult.mk "SKF 6205" "NA" "NA" "NA" "NA").
Proof.
  split; [left; reflexivity|]. split; [reflexivity|].
  apply (search_failure_gives_NA Samples.env_search_down "SKF 6205"
           "SKF 6205 manufacturer" "Read timed out.");
    [left; reflexivity | reflexivity].
Defined.

(** ** The classification stage *)

(** The node, branch by branch, each with the Record it returns and the
    calls and lines it leaves behind. *)
Lemma vector_search_cases (env : Env) (s : PartInfoState.t) :
  vector_search_agent_node env s =
  if vector_search_skips s then (s, [skip_line "vector search" s])
  else
    let failed e :=
      set_error (Val (py_or (get (error s)) ("Vector search error: " ++ e))) s in
    let category := extracted_part_category s in
    match vector_store env with
    | Raises e => (failed e, [Invoke VectorStore EmptyString; vector_error_line e])
    | Returns _ =>
        if category =? "na" then
          (classified (PStr "na") (PStr "na")
             (Val (py_or (get (error s)) "No valid part category")) s,
           [Invoke VectorStore EmptyString;
            Log WARNING "No valid part category for vector search"])
        else
          match agent_search env category with
          | Raises e =>
              (failed e,
               [Invoke VectorStore EmptyString; Invoke VectorQuery category;
                vector_error_line e])
          | Returns results =>
              match top_hit results with
              | None =>
                  (classified (PStr "na") (PStr "na") (store (get (error s))) s,
                   [Invoke VectorStore EmptyString; Invoke VectorQuery category;
                    Log WARNING "No vector search results found"])
              | Some hit =>
                  (classified (get_default (family hit) (PStr "na"))
                     (get_default (family_title hit) (PStr "na"))
                     (store (get (error s))) s,
                   [Invoke VectorStore EmptyString; Invoke VectorQuery category])
              end
          end
    end.
Proof.
  unfold vector_search_agent_node, vector_search_body, vector_error_line.
  cbv zeta. eff_unfold.
  destruct (vector_search_skips s); [reflexivity|].
  destruct (vector_store env); [|reflexivity].
  destruct (extracted_part_category s =? "na"); [reflexivity|].
  destruct (agent_search env (extracted_part_category s)); [|reflexivity].
  destruct (top_hit a0); reflexivity.
Qed.

Lemma set_error_same (s : PartInfoState.t) : set_error (error s) s = s.
Proof. destruct s; reflexivity. Qed.

(** C10. When the classification stage is not skipped and its exchange
    with the vector store raises, the Record it returns is the one it got
    with at most [error] changed: [unspsc_code] and [unspsc_family] are as
    they were, a prior error stays, and without one [error] becomes the
    vector-search-failure message. *)
Theorem vector_failure_keeps_taxonomy
  (env : Env) (s : PartInfoState.t) (e : string) :
  vector_search_skips s = false ->
  fst (vector_search_body env s) = Raises e ->
  fst (vector_search_agent_node env s)
  = set_error (Val (py_or (get (error s)) ("Vector search error: " ++ e))) s
  /\ unspsc_code (fst (vector_search_agent_node env s)) = unspsc_code s
  /\ unspsc_family (fst (vector_search_agent_node env s)) = unspsc_family s
  /\ (truthy (get (error s)) = true ->
      fst (vector_search_agent_node env s) = s)
  /\ (truthy (get (error s)) = false ->
      error (fst (vector_search_agent_node env s))
      = Val ("Vector search error: " ++ e)).
Proof.
  intros Hskip Hraise.
  assert (H : fst (vector_search_agent_node env s)
              = set_error (Val (py_or (get (error s))
                                  ("Vector search error: " ++ e))) s).
  { unfold vector_search_agent_node. rewrite Hskip.
    unfold try_except.
    destruct (vector_search_body env s) as [[s'|e'] l]; simpl in Hraise;
      [discriminate|].
    injection Hraise as ->. reflexivity. }
  rewrite H. repeat split.
  - intros Ht. destruct (truthy_get Ht) as (text & Herr & Hne).
    rewrite Herr. simpl.
    destruct (String.eqb_spec text EmptyString); [contradiction|].
    rewrite <- Herr. apply set_error_same.
  - intros Hf. simpl. now rewrite py_or_falsy.
Qed.

Lemma vector_failure_keeps_taxonomy_witness :
  vector_search_skips (after Samples.env_store_down "SKF 6205" 4) = false
  /\ fst (vector_search_body Samples.env_store_down
            (after Samples.env_store_down "SKF 6205" 4))
     = Raises "VECTORDB_PATH is not set in the environment variables."
  /\ unspsc_code (after Samples.env_store_down "SKF 6205" 5) = Missing
  /\ unspsc_family (after Samples.env_store_down "SKF 6205" 5) = Missing
  /\ error (after Samples.env_store_down "SKF 6205" 5)
     = Val "Vector search error: VECTORDB_PATH is not set in the environment variables.".
Proof.
  split; [reflexivity|]. split; [reflexivity|].
  destruct (vector_failure_keeps_taxonomy Samples.env_store_down
              (after Samples.env_store_down "SKF 6205" 4)
              "VECTORDB_PATH is not set in the environment variables."
              eq_refl eq_refl) as (_ & Hcode & Hfam & _ & Herr).
  split; [exact Hcode|]. split; [exact Hfam|]. exact (Herr eq_refl).
Defined.

(** C4, as stated, fails twice. The canonical answer of the synthesis
    stage's soft-failure path has category ["NA"], which the test against
    ["na"] lets through: the stage queries the index with ["NA"] and stores
    the top hit. And a Record whose category is ["na"] keeps its taxonomy
    fields unset when the vector store cannot be opened, since the store is
    opened before the category is looked at. *)
Lemma canonical_answer_reaches_the_index :
  (parsed_oem_info (after Samples.env_no_results "SKF 6205" 4) = Val na_output
   /\ vector_search_skips (after Samples.env_no_results "SKF 6205" 4) = false
   /\ events Samples.env_no_results "SKF 6205" 5
      = [Invoke VectorStore EmptyString; Invoke VectorQuery "NA"]
   /\ unspsc_code (after Samples.env_no_results "SKF 6205" 5) = Val (PStr "31")
   /\ unspsc_family (after Samples.env_no_results "SKF 6205" 5)
      = Val (PStr "bearings and bearing devices"))
  /\ (vector_search_skips answered_na = false
      /\ extracted_part_category answered_na = "na"
      /\ unspsc_code (fst (vector_search_agent_node Samples.env_store_down answered_na))
         = Missing
      /\ unspsc_family (fst (vector_search_agent_node Samples.env_store_down answered_na))
         = Missing).
Proof. repeat split. Qed.

(** C4, amended. A Record that reaches the classification stage (not
    skipped) with extracted category ["na"], the vector store opening
    without an exception, gets [unspsc_code = "na"] and
    [unspsc_family = "na"]; [error] keeps a prior error and is otherwise
    ["No valid part category"]; the store is opened and the index is not
    queried. *)
Theorem no_category_short_circuits (env : Env) (s : PartInfoState.t) :
  vector_search_skips s = false ->
  extracted_part_category s = "na" ->
  vector_store env = Returns tt ->
  vector_search_agent_node env s
  = (classified (PStr "na") (PStr "na")
       (Val (py_or (get (error s)) "No valid part category")) s,
     [Invoke VectorStore EmptyString;
      Log WARNING "No valid part category for vector search"])
  /\ unspsc_code (fst (vector_search_agent_node env s)) = Val (PStr "na")
  /\ unspsc_family (fst (vector_search_agent_node env s)) = Val (PStr "na")
  /\ (truthy (get (error s)) = true ->
      get (error (fst (vector_search_agent_node env s))) = get (error s))
  /\ (truthy (get (error s)) = false ->
      error (fst (vector_search_agent_node env s)) = Val "No valid part category")
  /\ (forall query,
      ~ In (Invoke VectorQuery query) (snd (vector_search_agent_node env s))).
Proof.
  intros Hskip Hna Hstore.
  rewrite vector_search_cases, Hskip, Hstore, Hna. cbv zeta. simpl.
  repeat split.
  - intros Ht. now rewrite py_or_truthy.
  - intros Hf. now rewrite py_or_falsy.
  - intros query [H|[H|[]]]; discriminate.
Qed.

Lemma no_category_short_circuits_witness :
  vector_search_skips answered_na = false
  /\ extracted_part_category answered_na = "na"
  /\ vector_store Samples.env_ok = Returns tt
  /\ unspsc_code (fst (vector_search_agent_node Samples.env_ok answered_na))
     = Val (PStr "na")
  /\ error (fst (vector_search_agent_node Samples.env_ok answered_na))
     = Val "No valid part category".
Proof.
  split; [reflexivity|]. split; [reflexivity|]. split; [reflexivity|].
  destruct (no_category_short_circuits Samples.env_ok answered_na
              eq_refl eq_refl eq_refl) as (_ & Hcode & _ & _ & Herr & _).
  split; [exact Hcode | exact (Herr eq_refl)].
Defined.

(** The index is queried only by a stage that was not skipped, after the
    store opened, and with the extracted category, which is not ["na"]. *)
Lemma vector_query_called (env : Env) (s : PartInfoState.t) (category : string) :
  In (Invoke VectorQuery category) (snd (vector_search_agent_node env s)) ->
  vector_search_skips s = false
  /\ vector_store env = Returns tt
  /\ category = extracted_part_category s
  /\ category <> "na".
Proof.
  rewrite vector_search_cases. cbv zeta.
  destruct (vector_search_skips s); [intros H; not_among_logs H|].
  destruct (vector_store env) as [[]|e]; [|intros H; not_among_logs H].
  destruct (String.eqb_spec (extracted_part_category s) "na") as [Hna|Hna];
    [intros H; not_among_logs H|].
  intros H.
  assert (Hc : category = extracted_part_category s).
  { destruct (agent_search env (extracted_part_category s)) as [results|e];
      [destruct (top_hit results)|];
      simpl in H; destruct H as [H|[H|H]]; try discriminate H;
      try (injection H as <-; reflexivity); not_among_logs H. }
  subst category. repeat split; assumption.
Qed.

(** C6, as stated, fails: with an index that has no neighbour for
    ["bearings"] the Result carries the stage's lowercase ["na"], not
    ["NA"]. *)
Lemma no_neighbors_result_is_lowercase :
  In (Invoke VectorQuery "bearings") (events Samples.env_no_neighbors "SKF 6205" 5)
  /\ fst (run Samples.env_no_neighbors "SKF 6205")
     = Ok (OEMResult.mk "SKF 6205" "skf" "bearings" "na" "na")
  /\ "na" <> "NA".
Proof.
  split; [right; left; reflexivity|]. split; [reflexivity | discriminate].
Qed.

(** C6, amended. When the classification stage queries the index (so
    with a category other than ["na"]) and the index returns no neighbour,
    the stage stores ["na"] in both taxonomy fields and keeps [error] as it
    was, and the Result has [unspsc_code = unspsc_family = "na"]: what the
    stage stores passes through the Assembler as it is. *)
Theorem no_neighbors_gives_na
  (env : Env) (q category : string) (results : option QueryResult) :
  In (Invoke VectorQuery category) (events env q 5) ->
  agent_search env category = Returns results ->
  top_hit results = None ->
  category <> "na"
  /\ unspsc_code (after env q 5) = Val (PStr "na")
  /\ unspsc_family (after env q 5) = Val (PStr "na")
  /\ get (error (after env q 5)) = get (error (after env q 4))
  /\ exists r, fst (run env q) = Ok r
               /\ OEMResult.unspsc_code r = "na"
               /\ OEMResult.unspsc_family r = "na".
Proof.
  intros Hin Hsearch Hnone.
  change (events env q 5)
    with (snd (vector_search_agent_node env (after env q 4))) in Hin.
  destruct (vector_query_called _ _ _ Hin) as (Hskip & Hstore & -> & Hna).
  assert (H5 : after env q 5
               = classified (PStr "na") (PStr "na")
                   (store (get (error (after env q 4)))) (after env q 4)).
  { rewrite after_5, vector_search_cases, Hskip, Hstore. cbv zeta.
    destruct (String.eqb_spec (extracted_part_category (after env q 4)) "na");
      [contradiction|].
    now rewrite Hsearch, Hnone. }
  split; [exact Hna|]. rewrite run_result, H5.
  repeat split.
  - simpl. now destruct (error (after env q 4)).
  - rewrite from_state_text by reflexivity. eexists. repeat split.
Qed.

Lemma no_neighbors_gives_na_witness :
  In (Invoke VectorQuery "bearings") (events Samples.env_no_neighbors "SKF 6205" 5)
  /\ agent_search Samples.env_no_neighbors "bearings" = Samples.hits []
  /\ top_hit (Some {| metadatas := Some [[]] |}) = None
  /\ unspsc_code (after Samples.env_no_neighbors "SKF 6205" 5) = Val (PStr "na")
  /\ unspsc_family (after Samples.env_no_neighbors "SKF 6205" 5) = Val (PStr "na").
Proof.
  assert (Hin : In (Invoke VectorQuery "bearings")
                  (events Samples.env_no_neighbors "SKF 6205" 5))
    by (right; left; reflexivity).
  split; [exact Hin|]. split; [reflexivity|]. split; [reflexivity|].
  destruct (no_neighbors_gives_na Samples.env_no_neighbors "SKF 6205" "bearings"
              (Some {| metadatas := Some [[]] |}) Hin eq_refl eq_refl)
    as (_ & Hcode & Hfam & _).
  split; [exact Hcode | exact Hfam].
Defined.

(** C9, as stated, fails: the two fields default one by one, so a top hit
    that carries a family code and no family title leaves [unspsc_code]
    with the code and [unspsc_family] with ["na"]. *)
Lemma untitled_hit_splits_the_pair :
  unspsc_code (after Samples.env_untitled_hit "SKF 6205" 5) = Val (PStr "31")
  /\ unspsc_family (after Samples.env_untitled_hit "SKF 6205" 5) = Val (PStr "na")
  /\ PStr "31" <> PStr "na".
Proof. repeat split. discriminate. Qed.

(** C9, amended. In every Record of a run the two taxonomy fields are
    either both missing or both set, and they are set by the
    classification stage only: both to ["na"] when there is no category or
    no neighbour, and on a hit each to the hit's own metadata entry
    ([family], [family_title]) or to ["na"] where that entry is missing. *)
Theorem taxonomy_fields_set_together (env : Env) (q : string) (stage : nat) :
  (unspsc_code (after env q stage) = Missing
   /\ unspsc_family (after env q stage) = Missing)
  \/ (5 <= stage
      /\ ((unspsc_code (after env q stage) = Val (PStr "na")
           /\ unspsc_family (after env q stage) = Val (PStr "na"))
          \/ exists results hit,
               agent_search env (extracted_part_category (after env q 4))
               = Returns results
               /\ top_hit results = Some hit
               /\ unspsc_code (after env q stage)
                  = Val (get_default (family hit) (PStr "na"))
               /\ unspsc_family (after env q stage)
                  = Val (get_default (family_title hit) (PStr "na")))).
Proof.
  destruct (Nat.le_gt_cases stage 4) as [Hle|Hgt].
  { left. now apply after_taxonomy_missing. }
  rewrite after_final by lia.
  destruct (after_taxonomy_missing env q 4) as [Hcode Hfam]; [lia|].
  rewrite after_5, vector_search_cases. cbv zeta.
  destruct (vector_search_skips (after env q 4)); [left; now split|].
  destruct (vector_store env); [|left; now split].
  destruct (extracted_part_category (after env q 4) =? "na");
    [right; split; [lia|]; left; now split|].
  destruct (agent_search env (extracted_part_category (after env q 4)))
    as [results|e] eqn:Hsearch; [|left; now split].
  destruct (top_hit results) as [hit|] eqn:Hhit.
  - right. split; [lia|]. right. exists results, hit. now repeat split.
  - right. split; [lia|]. left. now split.
Qed.

(** ** The synthesis and parsing stages *)

Lemma synthesize_cases (env : Env) (s : PartInfoState.t) :
  synthesize_oem_info_node env s =
  if truthy (get (error s)) then (s, [skip_line "synthesis" s])
  else if no_valid_search_results s then
    (set_error (Val "No valid search results for synthesis.")
       (set_parsed_oem_info (Val na_output)
          (set_llm_response_json (Val (model_dump_json env na_output)) s)),
     [Log WARNING "No valid search results for synthesis"])
  else
    let content := py_str (get (search_results s)) in
    let failed e := (set_error (Val ("LLM synthesis error: " ++ e)) s) in
    match llm_client env with
    | Raises e =>
        (failed e, [Invoke LLMClient EmptyString;
                    Log ERROR ("LLM synthesis error: " ++ e)])
    | Returns _ =>
        match generate_completion env content with
        | Raises e =>
            (failed e, [Invoke LLMClient EmptyString; Invoke Completion content;
                        Log ERROR ("LLM synthesis error: " ++ e)])
        | Returns llm_response =>
            (set_error PyNone (set_llm_response_json (store llm_response) s),
             [Invoke LLMClient EmptyString; Invoke Completion content])
        end
    end.
Proof.
  unfold synthesize_oem_info_node, no_valid_search_results. cbv zeta. eff_unfold.
  destruct (truthy (get (error s))); [reflexivity|].
  match goal with |- context [if ?b then _ else _] => destruct b end;
    [reflexivity|].
  destruct (llm_client env); [|reflexivity].
  destruct (generate_completion env _); reflexivity.
Qed.

Lemma parse_cases (env : Env) (s : PartInfoState.t) :
  parse_llm_output_node env s =
  if parse_skips s then (s, [skip_line "parsing" s])
  else if negb (truthy (get (llm_response_json s))) then
    (set_error (Val "No LLM response to parse.") s,
     [Log ERROR "No LLM response to parse."])
  else
    let raw := py_str (get (llm_response_json s)) in
    match parser_parse env raw with
    | Returns parsed_data =>
        (set_error (store (get (error s)))
           (set_parsed_oem_info (Val parsed_data) s),
         [Invoke OutputParser raw])
    | Raises e =>
        (set_error (Val (parsing_error e raw)) s,
         [Invoke OutputParser raw; Log ERROR (parsing_error e raw)])
    end.
Proof.
  unfold parse_llm_output_node, parsing_error. cbv zeta. eff_unfold.
  destruct (parse_skips s); [reflexivity|].
  destruct (negb (truthy (get (llm_response_json s)))); [reflexivity|].
  destruct (parser_parse env _); reflexivity.
Qed.

Lemma truthy_text (raw : string) : raw <> EmptyString -> truthy (Some raw) = true.
Proof.
  intros H. simpl. destruct (String.eqb_spec raw EmptyString);
    [contradiction | reflexivity].
Qed.

Lemma parse_rejects (env : Env) (s : PartInfoState.t) (raw e : string) :
  get (llm_response_json s) = Some raw -> raw <> EmptyString ->
  parser_parse env raw = Raises e ->
  fst (parse_llm_output_node env s) = set_error (Val (parsing_error e raw)) s.
Proof.
  intros Hllm Hraw Hparse. rewrite parse_cases. unfold parse_skips.
  rewrite Hllm, (truthy_text raw Hraw), andb_false_r.
  simpl. now rewrite Hparse.
Qed.

(** C7. The parsing stage skips (returns the Record as it got it, writing
    its skip line and nothing else) exactly when [error] is present and
    [llm_response_json] is [None]; on a present answer that the parser
    accepts it sets [parsed_oem_info] and leaves [state.get("error")] as it
    was; on one the parser rejects it changes [error] alone, to a message
    that ends with the raw answer. *)
Theorem parsing_stage_contract (env : Env) (s : PartInfoState.t) :
  (parse_llm_output_node env s = (s, [skip_line "parsing" s])
   <-> truthy (get (error s)) = true /\ get (llm_response_json s) = None)
  /\ (forall raw o,
        get (llm_response_json s) = Some raw -> raw <> EmptyString ->
        parser_parse env raw = Returns o ->
        fst (parse_llm_output_node env s)
        = set_error (store (get (error s))) (set_parsed_oem_info (Val o) s)
        /\ parsed_oem_info (fst (parse_llm_output_node env s)) = Val o
        /\ get (error (fst (parse_llm_output_node env s))) = get (error s))
  /\ (forall raw e,
        get (llm_response_json s) = Some raw -> raw <> EmptyString ->
        parser_parse env raw = Raises e ->
        fst (parse_llm_output_node env s)
        = set_error (Val (parsing_error e raw)) s
        /\ str_contains raw (parsing_error e raw) = true
        /\ parsed_oem_info (fst (parse_llm_output_node env s))
           = parsed_oem_info s).
Proof.
  split; [|split].
  - split.
    + rewrite parse_cases. unfold skip_line.
      destruct (parse_skips s) eqn:Hskip.
      * intros _. unfold parse_skips in Hskip.
        apply andb_true_iff in Hskip as [Herr Hnone]. split; [exact Herr|].
        destruct (get (llm_response_json s)); [discriminate | reflexivity].
      * destruct (negb (truthy (get (llm_response_json s))));
          [|cbv zeta; destruct (parser_parse env _)];
          intros H; injection H as _ H; discriminate H.
    + intros [Herr Hllm]. apply parse_skip. unfold parse_skips.
      now rewrite Herr, Hllm.
  - intros raw o Hllm Hraw Hparse. rewrite parse_cases.
    unfold parse_skips. rewrite Hllm, (truthy_text raw Hraw), andb_false_r.
    simpl. rewrite Hparse. simpl. repeat split.
    now destruct (error s).
  - intros raw e Hllm Hraw Hparse.
    rewrite (parse_rejects env s raw e Hllm Hraw Hparse).
    split; [reflexivity|]. split; [|reflexivity].
    unfold parsing_error. do 2 apply str_contains_app_r.
    apply str_contains_suffix.
Qed.

(** A soft error set by the synthesis stage survives a successful parse. *)
Example parse_keeps_soft_error :
  parsed_oem_info (after Samples.env_no_results "SKF 6205" 4) = Val na_output
  /\ error (after Samples.env_no_results "SKF 6205" 4)
     = Val "No valid search results for synthesis.".
Proof. split; reflexivity. Qed.

(** The completion is asked for only by a synthesis stage that holds
    usable search results, and what it returns is stored as it is. *)
Lemma completion_called
  (env : Env) (s : PartInfoState.t) (content : string) (answer : option string) :
  In (Invoke Completion content) (snd (synthesize_oem_info_node env s)) ->
  generate_completion env content = Returns answer ->
  fst (synthesize_oem_info_node env s)
  = set_error PyNone (set_llm_response_json (store answer) s).
Proof.
  rewrite synthesize_cases. cbv zeta.
  destruct (truthy (get (error s))); [intros H; not_among_logs H|].
  destruct (no_valid_search_results s); [intros H; not_among_logs H|].
  destruct (llm_client env); [|intros H; not_among_logs H].
  destruct (generate_completion env (py_str (get (search_results s))))
    as [answer'|e] eqn:Hcall; intros Hin Hret;
    simpl in Hin; destruct Hin as [Hin|[Hin|Hin]]; try discriminate Hin;
    try (now not_among_logs Hin); try contradiction;
    injection Hin as <-; rewrite Hcall in Hret; [|discriminate].
  injection Hret as ->. reflexivity.
Qed.

(** C8, as stated, fails: after a malformed completion the classification
    stage skips; it does not write ["na"], and the two taxonomy fields
    stay missing. *)
Lemma malformed_answer_leaves_taxonomy_missing :
  In (Invoke Completion (py_str (get (search_results (after Samples.env_malformed "SKF 6205" 2)))))
     (events Samples.env_malformed "SKF 6205" 3)
  /\ parser_parse Samples.env_malformed "The OEM is SKF." = Raises "Invalid json output"
  /\ parsed_oem_info (after Samples.env_malformed "SKF 6205" 4) = Missing
  /\ error (after Samples.env_malformed "SKF 6205" 4)
     = Val (parsing_error "Invalid json output" "The OEM is SKF.")
  /\ unspsc_code (after Samples.env_malformed "SKF 6205" 5) = Missing
  /\ unspsc_family (after Samples.env_malformed "SKF 6205" 5) = Missing
  /\ @Missing pyval <> Val (PStr "na").
Proof.
  split; [right; left; reflexivity|]. repeat split. discriminate.
Qed.

(** C8, amended. When the completion returns non-empty text that the
    parser rejects, the parsing stage records the parsing error and leaves
    [parsed_oem_info] missing; the classification stage then skips, because
    [error] is present and [parsed_oem_info] is absent: it returns the
    Record as it got it, the taxonomy fields stay missing, and the
    Assembler shows ["NA"] for them. *)
Theorem malformed_answer_skips_classification
  (env : Env) (q content raw e : string) :
  In (Invoke Completion content) (events env q 3) ->
  generate_completion env content = Returns (Some raw) ->
  raw <> EmptyString ->
  parser_parse env raw = Raises e ->
  error (after env q 4) = Val (parsing_error e raw)
  /\ parsed_oem_info (after env q 4) = Missing
  /\ after env q 5 = after env q 4
  /\ events env q 5 = [skip_line "vector search" (after env q 4)]
  /\ unspsc_code (after env q 5) = Missing
  /\ unspsc_family (after env q 5) = Missing
  /\ fst (run env q) = Ok (OEMResult.mk q "NA" "NA" "NA" "NA").
Proof.
  intros Hin Hret Hraw Hparse.
  change (events env q 3)
    with (snd (synthesize_oem_info_node env (after env q 2))) in Hin.
  pose proof (completion_called env _ content (Some raw) Hin Hret) as H3.
  rewrite <- after_3 in H3.
  destruct (after_search_unparsed env q 2) as [_ Hparsed2]; [lia|].
  destruct (after_taxonomy_missing env q 4) as [Hcode Hfam]; [lia|].
  assert (Hllm : get (llm_response_json (after env q 3)) = Some raw)
    by (rewrite H3; reflexivity).
  assert (Hparsed3 : parsed_oem_info (after env q 3) = Missing)
    by (rewrite H3; exact Hparsed2).
  pose proof (parse_rejects env (after env q 3) raw e Hllm Hraw Hparse) as H4.
  rewrite <- after_4 in H4.
  assert (Hparsed4 : parsed_oem_info (after env q 4) = Missing)
    by (rewrite H4; exact Hparsed3).
  assert (Herr : error (after env q 4) = Val (parsing_error e raw))
    by (rewrite H4; reflexivity).
  assert (Hskip : vector_search_skips (after env q 4) = true).
  { unfold vector_search_skips. rewrite Herr, Hparsed4. reflexivity. }
  assert (H5 : after env q 5 = after env q 4)
    by (now rewrite after_5, vector_search_skip).
  repeat split; trivial.
  - change (events env q 5)
      with (snd (vector_search_agent_node env (after env q 4))).
    now rewrite vector_search_skip.
  - now rewrite H5.
  - now rewrite H5.
  - rewrite run_result, H5, from_state_text by (now rewrite ?Hcode, ?Hfam).
    rewrite Hparsed4, Hcode, Hfam. simpl.
    now rewrite (after_original_query env q 4).
Qed.

Lemma malformed_answer_skips_classification_witness :
  In (Invoke Completion (py_str (get (search_results (after Samples.env_malformed "SKF 6205" 2)))))
     (events Samples.env_malformed "SKF 6205" 3)
  /\ "The OEM is SKF." <> EmptyString
  /\ fst (run Samples.env_malformed "SKF 6205")
     = Ok (OEMResult.mk "SKF 6205" "NA" "NA" "NA" "NA").
Proof.
  assert (Hin : In (Invoke Completion
                      (py_str (get (search_results
                                      (after Samples.env_malformed "SKF 6205" 2)))))
                  (events Samples.env_malformed "SKF 6205" 3))
    by (right; left; reflexivity).
  assert (Hraw : "The OEM is SKF." <> EmptyString) by discriminate.
  split; [exact Hin|]. split; [exact Hraw|].
  apply (malformed_answer_skips_classification Samples.env_malformed "SKF 6205"
           _ "The OEM is SKF." "Invalid json output" Hin eq_refl Hraw eq_refl).
Defined.

(** ** When the classification is set *)

(** After the synthesis stage a classification can only be the canonical
    answer of the soft-failure path, stored next to its own dump. *)
Lemma after_synthesis_classification (env : Env) (q : string) (o : OEMOutput.t) :
  parsed_oem_info (after env q 3) = Val o ->
  o = na_output
  /\ llm_response_json (after env q 3) = Val (model_dump_json env na_output)
  /\ In (Log WARNING "No valid search results for synthesis") (events env q 3).
Proof.
  destruct (after_search_unparsed env q 2) as [_ Hparsed]; [lia|].
  change (events env q 3)
    with (snd (synthesize_oem_info_node env (after env q 2))).
  rewrite after_3, synthesize_cases. cbv zeta.
  destruct (truthy (get (error (after env q 2))));
    [simpl; rewrite Hparsed; discriminate|].
  destruct (no_valid_search_results (after env q 2)).
  - simpl. intros H. injection H as <-. repeat split. now left.
  - destruct (llm_client env);
      [destruct (generate_completion env _)|];
      simpl; rewrite Hparsed; discriminate.
Qed.

(** C5, as stated, fails: with a search that finds nothing the synthesis
    stage itself sets the classification, before the parsing stage has run
    and with no call to the parser so far. *)
Lemma synthesis_sets_classification_unparsed :
  parsed_oem_info (after Samples.env_no_results "SKF 6205" 3) = Val na_output
  /\ (events Samples.env_no_results "SKF 6205" 1
      ++ events Samples.env_no_results "SKF 6205" 2
      ++ events Samples.env_no_results "SKF 6205" 3)%list
     = [Invoke TranslateClient EmptyString;
        Invoke DetectLanguage "SKF 6205";
        Invoke GoogleSearch "SKF 6205 manufacturer";
        Log WARNING "No search results found";
        Log WARNING "No valid search results for synthesis"].
Proof. split; reflexivity. Qed.

(** C5, amended. In every Record of a run the classification, when set,
    is a whole [OEMOutput] that came about in one of two ways: the
    synthesis stage's soft-failure path stored the canonical answer
    together with its dump as [llm_response_json], or the parsing stage
    stored what the parser returned for [llm_response_json]. It is never
    set before the synthesis stage and never set to [None]. *)
Theorem classification_provenance
  (env : Env) (q : string) (stage : nat) :
  parsed_oem_info (after env q stage) <> PyNone
  /\ forall o,
       parsed_oem_info (after env q stage) = Val o ->
       o = OEMOutput.mk (OEMOutput.oem o) (OEMOutput.part_category o)
       /\ ((3 <= stage
            /\ o = na_output
            /\ llm_response_json (after env q stage)
               = Val (model_dump_json env na_output)
            /\ In (Log WARNING "No valid search results for synthesis")
                 (events env q 3))
           \/ (4 <= stage
               /\ exists raw,
                    llm_response_json (after env q stage) = Val raw
                    /\ parser_parse env raw = Returns o)).
Proof.
  assert (H3 : parsed_oem_info (after env q 3) <> PyNone).
  { destruct (after_search_unparsed env q 2) as [_ Hparsed]; [lia|].
    rewrite after_3, synthesize_cases. cbv zeta.
    destruct (truthy _); [simpl; rewrite Hparsed; discriminate|].
    destruct (no_valid_search_results _); [discriminate|].
    destruct (llm_client env); [destruct (generate_completion env _)|];
      simpl; rewrite Hparsed; discriminate. }
  assert (H4 : parsed_oem_info (after env q 4) <> PyNone
               /\ forall o, parsed_oem_info (after env q 4) = Val o ->
                    (o = na_output
                     /\ llm_response_json (after env q 4)
                        = Val (model_dump_json env na_output)
                     /\ In (Log WARNING "No valid search results for synthesis")
                          (events env q 3))
                    \/ exists raw, llm_response_json (after env q 4) = Val raw
                                   /\ parser_parse env raw = Returns o).
  { pose proof (after_synthesis_classification env q) as Hsyn.
    rewrite after_4, parse_cases. cbv zeta.
    destruct (parse_skips (after env q 3)); [split; [exact H3|]; intros o Ho; left; auto|].
    destruct (negb (truthy (get (llm_response_json (after env q 3))))) eqn:Hllm;
      [split; [exact H3|]; intros o Ho; left; auto|].
    destruct (parser_parse env _) as [parsed|e] eqn:Hparse;
      [|split; [exact H3|]; intros o Ho; left; auto].
    split; [discriminate|]. intros o Ho. right. simpl in Ho. injection Ho as <-.
    destruct (llm_response_json (after env q 3)) as [| |raw] eqn:Hraw;
      try discriminate.
    exists raw. split; [simpl; exact Hraw | exact Hparse]. }
  destruct (Nat.le_gt_cases stage 2) as [Hle|Hgt].
  { destruct (after_search_unparsed env q stage Hle) as [_ ->].
    split; [discriminate|]. intros o Ho. discriminate. }
  destruct (Nat.eq_dec stage 3) as [->|Hne].
  { split; [exact H3|]. intros o Ho. split; [now destruct o|]. left.
    destruct (after_synthesis_classification env q o Ho) as (-> & Hl & Hin).
    repeat split; trivial. }
  assert (Hstage : parsed_oem_info (after env q stage) = parsed_oem_info (after env q 4)
                   /\ llm_response_json (after env q stage)
                      = llm_response_json (after env q 4)).
  { destruct (Nat.eq_dec stage 4) as [->|Hne4]; [split; reflexivity|].
    rewrite after_final by lia. rewrite after_5.
    destruct (vector_search_frame env (after env q 4)) as (_ & _ & _ & -> & ->).
    split; reflexivity. }
  destruct Hstage as [-> ->]. destruct H4 as [H4 H4o].
  split; [exact H4|]. intros o Ho. split; [now destruct o|].
  destruct (H4o o Ho) as [(-> & Hl & Hin)|(raw & Hl & Hp)].
  - left. repeat split; trivial.
  - right. split; [lia|]. exists raw. now split.
Qed.

Lemma classification_provenance_witness :
  parsed_oem_info (after Samples.env_ok "SKF 6205" 5) = Val Samples.skf_output
  /\ (4 <= 5
      /\ exists raw,
           llm_response_json (after Samples.env_ok "SKF 6205" 5) = Val raw
           /\ parser_parse Samples.env_ok raw = Returns Samples.skf_output).
Proof.
  split; [reflexivity|].
  destruct (classification_provenance Samples.env_ok "SKF 6205" 5) as [_ H].
  destruct (H Samples.skf_output eq_refl) as [_ [(_ & Hna & _)|Hparsed]].
  - discriminate Hna.
  - exact Hparsed.
Defined.

(** * Further properties *)

(** ** More on strings *)

Lemma append_assoc (a b c : string) : (a ++ b) ++ c = a ++ (b ++ c).
Proof. induction a as [|x a IH]; simpl; [reflexivity | now rewrite IH]. Qed.

Lemma prefix_app (needle hay after_ : string) :
  String.prefix needle hay = true -> String.prefix needle (hay ++ after_) = true.
Proof.
  revert hay. induction needle as [|x needle IH]; intros hay H;
    [destruct (hay ++ after_); reflexivity|].
  destruct hay as [|y hay]; simpl in *; [discriminate|].
  destruct (ascii_dec x y); [now apply IH | discriminate].
Qed.

(** A text that occurs in [hay] occurs in [hay ++ after_]. *)
Lemma str_contains_app_l (needle hay after_ : string) :
  str_contains needle hay = true ->
  str_contains needle (hay ++ after_) = true.
Proof.
  induction hay as [|y hay IH]; intros H.
  - destruct needle; [destruct after_; reflexivity | discriminate H].
  - unfold str_contains in H; fold str_contains in H.
    apply orb_true_iff in H as [H|H].
    + apply str_contains_prefix. now apply (prefix_app _ (String y hay)).
    + simpl. rewrite (IH H). apply orb_true_r.
Qed.

(** ** The translation and search stages, branch by branch *)

Lemma translating_cases (env : Env) (s : PartInfoState.t) :
  translating_agent_node env s =
  let text := original_query s in
  let failed e := set_error (Val ("Translation error: " ++ e)) s in
  let line e := Log ERROR ("Translation error: " ++ e) in
  match translate_client env with
  | Raises e => (failed e, [Invoke TranslateClient EmptyString; line e])
  | Returns _ =>
      match detect_language env text with
      | Raises e =>
          (failed e, [Invoke TranslateClient EmptyString;
                      Invoke DetectLanguage text; line e])
      | Returns text_language =>
          if text_language =? "en" then
            (set_error PyNone (set_translated_query (Val text) s),
             [Invoke TranslateClient EmptyString; Invoke DetectLanguage text])
          else
            match translate env text with
            | Raises e =>
                (failed e, [Invoke TranslateClient EmptyString;
                            Invoke DetectLanguage text;
                            Invoke Translate text; line e])
            | Returns translated_text =>
                (set_error PyNone
                   (set_translated_query (Val translated_text) s),
                 [Invoke TranslateClient EmptyString;
                  Invoke DetectLanguage text; Invoke Translate text])
            end
      end
  end.
Proof.
  unfold translating_agent_node. cbv zeta. eff_unfold.
  destruct (translate_client env); [|reflexivity].
  destruct (detect_language env (original_query s)); [|reflexivity].
  destruct (a0 =? "en"); simpl; [reflexivity|].
  destruct (translate env (original_query s)); reflexivity.
Qed.

Lemma web_search_cases (env : Env) (s : PartInfoState.t) :
  web_search_agent_node env s =
  if truthy (get (error s)) then (s, [skip_line "search" s])
  else if negb (truthy (get (translated_query s))) then
    (set_error (Val "No translated query available for search.") s,
     [Log ERROR "No translated query available for search."])
  else
    let part_query := py_str (get (translated_query s)) in
    let query := part_query ++ " manufacturer" in
    match google_search env query with
    | Raises e =>
        (set_error (Val ("Search error: " ++ e))
           (set_search_results (Val ("Error performing search: " ++ e)) s),
         [Invoke GoogleSearch query; Log ERROR ("Search error: " ++ e)])
    | Returns items =>
        (set_error PyNone
           (set_search_results (Val (fst (format_results part_query items))) s),
         Invoke GoogleSearch query :: snd (format_results part_query items))
    end.
Proof.
  unfold web_search_agent_node. cbv zeta.
  destruct (truthy (get (error s))); [reflexivity|].
  destruct (negb (truthy (get (translated_query s)))); [reflexivity|].
  unfold try_except, try_bind, call.
  destruct (google_search env _); [|reflexivity].
  destruct (format_results _ a). reflexivity.
Qed.

(** The search stage's text for the items of a response. *)
Lemma format_results_text (part_query : string) (items : option (list SearchItem)) :
  fst (format_results part_query items)
  = "Search results for part query: " ++ part_query ++ nl ++ nl
    ++ match items with
       | Some (item :: rest) => format_items 1 (item :: rest)
       | _ => "No search results found."
       end.
Proof.
  unfold format_results, ret, bind, log.
  destruct items as [[|item rest]|]; cbn [fst]; now rewrite !append_assoc.
Qed.

(** ** Which stage calls which provider *)

Lemma invocations_app (p : Provider) (l1 l2 : list Event) :
  invocations p (l1 ++ l2) = invocations p l1 + invocations p l2.
Proof. unfold invocations. now rewrite filter_app, length_app. Qed.

Lemma format_results_logs (part_query : string) (items : option (list SearchItem)) :
  snd (format_results part_query items) = []
  \/ snd (format_results part_query items) = [Log WARNING "No search results found"].
Proof. destruct items as [[|item rest]|]; simpl; auto. Qed.

(** A node calls the providers of its own stage only, each at most once. *)
Lemma node_invocations (env : Env) (s : PartInfoState.t) (stage : nat) (p : Provider) :
  invocations p (snd (node stage env s))
  <= (if Nat.eqb (stage_of p) stage then 1 else 0).
Proof.
  destruct stage as [|[|[|[|[|[|stage]]]]]]; simpl node.
  - destruct p; unfold invocations; simpl; lia.
  - rewrite translating_cases. cbv zeta.
    destruct (translate_client env);
      [destruct (detect_language env _);
       [destruct (_ =? "en"); [|destruct (translate env _)]|]|];
      destruct p; unfold invocations; simpl; lia.
  - rewrite web_search_cases. cbv zeta.
    destruct (truthy _); [destruct p; unfold invocations; simpl; lia|].
    destruct (negb _); [destruct p; unfold invocations; simpl; lia|].
    destruct (google_search env _) as [items|e]; [|destruct p; unfold invocations; simpl; lia].
    cbn [snd].
    destruct (format_results_logs (py_str (get (translated_query s))) items)
      as [-> | ->]; destruct p; unfold invocations; simpl; lia.
  - rewrite synthesize_cases. cbv zeta.
    destruct (truthy _); [destruct p; unfold invocations; simpl; lia|].
    destruct (no_valid_search_results s); [destruct p; unfold invocations; simpl; lia|].
    destruct (llm_client env); [destruct (generate_completion env _)|];
      destruct p; unfold invocations; simpl; lia.
  - rewrite parse_cases. cbv zeta.
    destruct (parse_skips s); [destruct p; unfold invocations; simpl; lia|].
    destruct (negb _); [destruct p; unfold invocations; simpl; lia|].
    destruct (parser_parse env _); destruct p; unfold invocations; simpl; lia.
  - rewrite vector_search_cases. cbv zeta.
    destruct (vector_search_skips s); [destruct p; unfold invocations; simpl; lia|].
    destruct (vector_store env); [|destruct p; unfold invocations; simpl; lia].
    destruct (_ =? "na"); [destruct p; unfold invocations; simpl; lia|].
    destruct (agent_search env _) as [results|e];
      [destruct (top_hit results)|]; destruct p; unfold invocations; simpl; lia.
  - destruct p; unfold invocations; simpl; lia.
Qed.

Lemma invocations_In (p : Provider) (arg : string) (l : list Event) :
  In (Invoke p arg) l -> 1 <= invocations p l.
Proof.
  induction l as [|e l IH]; intros H; [contradiction|].
  unfold invocations. simpl. destruct H as [->|H].
  - destruct p; simpl; lia.
  - specialize (IH H). unfold invocations in IH.
    destruct (is_invoke p e); simpl; lia.
Qed.

(** A call found among the events of a stage belongs to that stage. *)
Lemma In_invoke_stage
  (env : Env) (s : PartInfoState.t) (stage : nat) (p : Provider) (arg : string) :
  In (Invoke p arg) (snd (node stage env s)) -> stage_of p = stage.
Proof.
  intros H. apply invocations_In in H.
  pose proof (node_invocations env s stage p) as Hle.
  destruct (Nat.eqb_spec (stage_of p) stage); [assumption | lia].
Qed.

Lemma run_events_stages (env : Env) (q : string) :
  run_events env q
  = (events env q 1 ++ events env q 2 ++ events env q 3
     ++ events env q 4 ++ events env q 5)%list.
Proof. apply invoke_events. Qed.

(** X1. A run calls each provider at most once: no stage retries a call
    and no two stages share a provider. *)
Theorem each_provider_called_at_most_once
  (env : Env) (q : string) (p : Provider) :
  invocations p (run_events env q) <= 1.
Proof.
  rewrite run_events_stages, !invocations_app. unfold events.
  pose proof (node_invocations env (after env q 0) 1 p) as H1.
  pose proof (node_invocations env (after env q 1) 2 p) as H2.
  pose proof (node_invocations env (after env q 2) 3 p) as H3.
  pose proof (node_invocations env (after env q 3) 4 p) as H4.
  pose proof (node_invocations env (after env q 4) 5 p) as H5.
  change (pred 1) with 0. change (pred 2) with 1. change (pred 3) with 2.
  change (pred 4) with 3. change (pred 5) with 4.
  revert H1 H2 H3 H4 H5.
  generalize (invocations p (snd (node 1 env (after env q 0)))).
  generalize (invocations p (snd (node 2 env (after env q 1)))).
  generalize (invocations p (snd (node 3 env (after env q 2)))).
  generalize (invocations p (snd (node 4 env (after env q 3)))).
  generalize (invocations p (snd (node 5 env (after env q 4)))).
  intros n5 n4 n3 n2 n1.
  destruct p; cbn [stage_of Nat.eqb]; lia.
Qed.

(** ** Hard failures *)

Lemma halted_fields (s : PartInfoState.t) :
  halted s = true ->
  truthy (get (error s)) = true
  /\ is_None (get (llm_response_json s)) = true
  /\ is_None (get (parsed_oem_info s)) = true.
Proof.
  unfold halted. intros H.
  apply andb_true_iff in H as [H H3]. apply andb_true_iff in H as [H1 H2].
  auto.
Qed.

(** Every node after the first returns a halted Record as it got it. *)
Lemma node_skip_halted (env : Env) (s : PartInfoState.t) (stage : nat) :
  2 <= stage <= 5 -> halted s = true ->
  node stage env s = (s, [skip_line (skip_name stage) s]).
Proof.
  intros Hk H. destruct (halted_fields s H) as (Herr & Hllm & Hparsed).
  destruct stage as [|[|[|[|[|[|stage]]]]]]; try lia; simpl node.
  - rewrite web_search_cases, Herr. reflexivity.
  - now apply synthesize_skip.
  - apply parse_skip. unfold parse_skips. now rewrite Herr, Hllm.
  - apply vector_search_skip. unfold vector_search_skips.
    now rewrite Herr, Hparsed.
Qed.

Lemma halted_after (env : Env) (q : string) (k j : nat) :
  1 <= k -> k <= j -> halted (after env q k) = true ->
  after env q j = after env q k.
Proof.
  intros Hk Hkj H. induction j as [|j IH]; [lia|].
  destruct (Nat.eq_dec k (S j)) as [->|Hne]; [reflexivity|].
  assert (Hj : after env q j = after env q k) by (apply IH; lia).
  destruct (Nat.le_gt_cases (S j) 5) as [Hle|Hgt].
  - rewrite after_S, Hj, node_skip_halted by (trivial; lia). reflexivity.
  - rewrite after_final by lia. rewrite <- Hj.
    symmetry. apply after_final. lia.
Qed.

Lemma halted_events (env : Env) (q : string) (k j : nat) :
  1 <= k -> k < j <= 5 -> halted (after env q k) = true ->
  events env q j = [skip_line (skip_name j) (after env q k)].
Proof.
  intros Hk Hj H. unfold events.
  rewrite (halted_after env q k (pred j)) by (trivial; lia).
  rewrite node_skip_halted by (trivial; lia). reflexivity.
Qed.

Lemma halted_result (env : Env) (q : string) (k : nat) :
  1 <= k <= 4 -> halted (after env q k) = true ->
  fst (run env q) = Ok (OEMResult.mk q "NA" "NA" "NA" "NA").
Proof.
  intros Hk H. destruct (halted_fields _ H) as (_ & _ & Hparsed).
  destruct (after_taxonomy_missing env q k) as [Hcode Hfam]; [lia|].
  rewrite run_result, (halted_after env q k 5) by (trivial; lia).
  rewrite from_state_text by (now rewrite ?Hcode, ?Hfam).
  rewrite Hcode, Hfam, after_original_query.
  destruct (get (parsed_oem_info (after env q k))); [discriminate|reflexivity].
Qed.

(** X2. A hard failure is absorbing: once a Record of a run holds an
    error with nothing to parse and nothing to classify, every later stage
    returns it unchanged and writes only its skip line, and the Result is
    the query with ["NA"] everywhere else. *)
Theorem hard_failure_is_absorbing (env : Env) (q : string) (k : nat) :
  1 <= k <= 4 ->
  halted (after env q k) = true ->
  (forall j, k <= j -> after env q j = after env q k)
  /\ (forall j, k < j <= 5 ->
        events env q j = [skip_line (skip_name j) (after env q k)])
  /\ (forall p arg, In (Invoke p arg) (run_events env q) -> stage_of p <= k)
  /\ fst (run env q) = Ok (OEMResult.mk q "NA" "NA" "NA" "NA").
Proof.
  intros Hk H. split; [|split; [|split]].
  - intros j Hj. apply halted_after; trivial; lia.
  - intros j Hj. apply halted_events; trivial; lia.
  - intros p arg Hin. rewrite run_events_stages in Hin.
    assert (Hst : forall j, 1 <= j <= 5 ->
                    In (Invoke p arg) (events env q j) -> stage_of p <= k).
    { intros j Hj Hj'. destruct (Nat.le_gt_cases j k) as [Hle|Hgt].
      - unfold events in Hj'. apply In_invoke_stage in Hj'. lia.
      - rewrite (halted_events env q k j) in Hj' by (trivial; lia).
        destruct Hj' as [Hj'|[]]. discriminate Hj'. }
    repeat (apply in_app_or in Hin as [Hin|Hin];
            [eapply Hst; [|exact Hin]; lia|]).
    eapply Hst; [|exact Hin]; lia.
  - apply (halted_result env q k); trivial.
Qed.

Lemma hard_failure_is_absorbing_witness :
  halted (after Samples.env_search_down "SKF 6205" 2) = true
  /\ fst (run Samples.env_search_down "SKF 6205")
     = Ok (OEMResult.mk "SKF 6205" "NA" "NA" "NA" "NA").
Proof.
  split; [reflexivity|].
  apply (hard_failure_is_absorbing Samples.env_search_down "SKF 6205" 2);
    [lia | reflexivity].
Defined.

(** ** The translation stage in a run *)

(** What the first Record after translation looks like. *)
Lemma after_translation (env : Env) (q : string) :
  (error (after env q 1) = PyNone
   /\ exists t, translated_query (after env q 1) = Val t
                /\ ((detect_language env q = Returns "en" /\ t = q)
                    \/ translate env q = Returns t))
  \/ (translated_query (after env q 1) = Missing
      /\ exists e, error (after env q 1) = Val ("Translation error: " ++ e)).
Proof.
  rewrite after_1, translating_cases. cbv zeta.
  change (original_query (inputs q)) with q.
  destruct (translate_client env) as [u|e]; [|right; split; [reflexivity|now exists e]].
  destruct (detect_language env q) as [lang|e] eqn:Hdetect;
    [|right; split; [reflexivity|now exists e]].
  destruct (String.eqb_spec lang "en") as [->|Hne].
  - left. split; [reflexivity|]. exists q. split; [reflexivity|]. now left.
  - destruct (translate env q) as [t|e] eqn:Htr;
      [|right; split; [reflexivity|now exists e]].
    left. split; [reflexivity|]. exists t. split; [reflexivity|]. now right.
Qed.

(** X3. After the translation stage exactly one of [translated_query] and
    [error] is set: either the error is cleared and [translated_query] is
    the query itself (detected as English) or what the provider translated
    it to, or [translated_query] is still missing and [error] is a
    translation error. *)
Theorem translation_sets_query_or_error (env : Env) (q : string) :
  (error (after env q 1) = PyNone
   /\ exists t, translated_query (after env q 1) = Val t
                /\ ((detect_language env q = Returns "en" /\ t = q)
                    \/ translate env q = Returns t))
  \/ (translated_query (after env q 1) = Missing
      /\ halted (after env q 1) = true
      /\ exists e, error (after env q 1) = Val ("Translation error: " ++ e)).
Proof.
  destruct (after_translation env q) as [H|(Ht & e & He)]; [now left|].
  right. split; [exact Ht|]. split; [|now exists e].
  destruct (after_search_unparsed env q 1) as [Hllm Hparsed]; [lia|].
  unfold halted. now rewrite He, Hllm, Hparsed.
Qed.

(** English goes through untranslated; other languages are translated. *)
Example translation_samples :
  translated_query (after Samples.env_ok "SKF 6205" 1) = Val "SKF 6205"
  /\ events Samples.env_ok "SKF 6205" 1
     = [Invoke TranslateClient EmptyString; Invoke DetectLanguage "SKF 6205"]
  /\ translated_query (after MoreSamples.env_french "roulement 6205" 1)
     = Val "ball bearing 6205"
  /\ events MoreSamples.env_french "roulement 6205" 1
     = [Invoke TranslateClient EmptyString; Invoke DetectLanguage "roulement 6205";
        Invoke Translate "roulement 6205"].
Proof. repeat split. Qed.

(** X4. When the translation stage records an error, the run stops
    there: [translated_query] stays missing, no search, completion, parser
    or vector-store call is made, every later stage skips, and the Result
    is the query with ["NA"] in the other fields. *)
Theorem translation_failure_halts_run (env : Env) (q : string) :
  truthy (get (error (after env q 1))) = true ->
  translated_query (after env q 1) = Missing
  /\ (exists e, error (after env q 1) = Val ("Translation error: " ++ e))
  /\ after env q 5 = after env q 1
  /\ (forall p arg, In (Invoke p arg) (run_events env q) -> stage_of p = 1)
  /\ fst (run env q) = Ok (OEMResult.mk q "NA" "NA" "NA" "NA").
Proof.
  intros Herr.
  destruct (after_translation env q) as [[He _]|(Ht & e & He)];
    [rewrite He in Herr; discriminate|].
  destruct (after_search_unparsed env q 1) as [Hllm Hparsed]; [lia|].
  assert (H : halted (after env q 1) = true)
    by (unfold halted; now rewrite He, Hllm, Hparsed).
  split; [exact Ht|]. split; [now exists e|].
  split; [apply halted_after; [lia | lia | exact H]|]. split.
  - intros p arg Hin. rewrite run_events_stages in Hin.
    apply in_app_or in Hin as [Hin|Hin];
      [unfold events in Hin; now apply In_invoke_stage in Hin|].
    exfalso.
    assert (Hskip : forall j, 1 < j <= 5 ->
                      ~ In (Invoke p arg) (events env q j)).
    { intros j Hj Hj'. rewrite (halted_events env q 1 j (le_n 1) Hj H) in Hj'.
      destruct Hj' as [Hj'|[]]. discriminate Hj'. }
    repeat (apply in_app_or in Hin as [Hin|Hin];
            [revert Hin; apply Hskip; lia|]).
    revert Hin. apply Hskip. lia.
  - apply (halted_result env q 1); [lia | exact H].
Qed.

Lemma translation_failure_halts_run_witness :
  truthy (get (error (after MoreSamples.env_translate_down "SKF 6205" 1))) = true
  /\ fst (run MoreSamples.env_translate_down "SKF 6205")
     = Ok (OEMResult.mk "SKF 6205" "NA" "NA" "NA" "NA").
Proof.
  split; [reflexivity|].
  apply (translation_failure_halts_run MoreSamples.env_translate_down "SKF 6205").
  reflexivity.
Defined.

(** ** The search stage in a run *)

Lemma search_called (env : Env) (s : PartInfoState.t) (query : string) :
  In (Invoke GoogleSearch query) (snd (web_search_agent_node env s)) ->
  truthy (get (error s)) = false
  /\ exists t, translated_query s = Val t /\ t <> EmptyString
               /\ query = t ++ " manufacturer".
Proof.
  rewrite web_search_cases. cbv zeta.
  destruct (truthy (get (error s))); [intros H; not_among_logs H|].
  destruct (truthy (get (translated_query s))) eqn:Ht; simpl negb; cbv iota;
    [|intros H; not_among_logs H].
  destruct (truthy_get Ht) as (t & Hq & Hne). rewrite Hq. simpl py_str.
  intros H. split; [reflexivity|]. exists t. repeat split; trivial.
  destruct (google_search env (t ++ " manufacturer")) as [items|e]; simpl in H.
  - destruct H as [H|H]; [now injection H as <-|].
    destruct (format_results_logs t items) as [Hl|Hl]; rewrite Hl in H;
      not_among_logs H.
  - destruct H as [H|H]; [now injection H as <-|]. not_among_logs H.
Qed.

(** X5. A run searches the web only with a non-empty translated query,
    and the request is that text followed by [" manufacturer"]: the query
    itself when it was detected as English, its translation otherwise.  An
    empty query or an empty translation never reaches the search
    provider. *)
Theorem search_request_shape (env : Env) (q query : string) :
  In (Invoke GoogleSearch query) (run_events env q) ->
  exists t,
    translated_query (after env q 1) = Val t
    /\ t <> EmptyString
    /\ query = t ++ " manufacturer"
    /\ ((detect_language env q = Returns "en" /\ t = q)
        \/ translate env q = Returns t).
Proof.
  intros Hin. rewrite run_events_stages in Hin.
  assert (H2 : In (Invoke GoogleSearch query) (events env q 2)).
  { apply in_app_or in Hin as [Hin|Hin];
      [unfold events in Hin; apply In_invoke_stage in Hin; discriminate|].
    apply in_app_or in Hin as [Hin|Hin]; [exact Hin|].
    repeat (apply in_app_or in Hin as [Hin|Hin];
            [unfold events in Hin; apply In_invoke_stage in Hin; discriminate|]).
    unfold events in Hin. apply In_invoke_stage in Hin. discriminate. }
  change (events env q 2)
    with (snd (web_search_agent_node env (after env q 1))) in H2.
  destruct (search_called env _ query H2) as (_ & t & Ht & Hne & Hq).
  exists t. repeat split; trivial.
  destruct (after_translation env q) as [(_ & t' & Ht' & Hor)|(Hm & _)];
    [|rewrite Hm in Ht; discriminate].
  rewrite Ht in Ht'. now injection Ht' as <-.
Qed.

Lemma search_request_shape_witness :
  In (Invoke GoogleSearch "ball bearing 6205 manufacturer")
     (run_events MoreSamples.env_french "roulement 6205")
  /\ exists t,
       translated_query (after MoreSamples.env_french "roulement 6205" 1) = Val t
       /\ t <> EmptyString
       /\ "ball bearing 6205 manufacturer" = t ++ " manufacturer"
       /\ ((detect_language MoreSamples.env_french "roulement 6205" = Returns "en"
            /\ t = "roulement 6205")
           \/ translate MoreSamples.env_french "roulement 6205" = Returns t).
Proof.
  assert (Hin : In (Invoke GoogleSearch "ball bearing 6205 manufacturer")
                  (run_events MoreSamples.env_french "roulement 6205"))
    by (do 3 right; left; reflexivity).
  split; [exact Hin|].
  exact (search_request_shape MoreSamples.env_french "roulement 6205" _ Hin).
Defined.

(** A call of a run is found among the events of its provider's stage. *)
Lemma run_event_stage (env : Env) (q : string) (p : Provider) (arg : string) :
  In (Invoke p arg) (run_events env q) ->
  In (Invoke p arg) (events env q (stage_of p)).
Proof.
  intros Hin. rewrite run_events_stages in Hin.
  assert (Hst : forall j, In (Invoke p arg) (events env q j) ->
                          In (Invoke p arg) (events env q (stage_of p))).
  { intros j Hj. pose proof Hj as Hj'. unfold events in Hj'.
    apply In_invoke_stage in Hj'. now rewrite Hj'. }
  repeat (apply in_app_or in Hin as [Hin|Hin]; [now apply (Hst _ Hin)|]).
  now apply (Hst _ Hin).
Qed.

Lemma search_returned
  (env : Env) (q query : string) (items : option (list SearchItem)) :
  In (Invoke GoogleSearch query) (events env q 2) ->
  google_search env query = Returns items ->
  exists t,
    translated_query (after env q 1) = Val t
    /\ after env q 2
       = set_error PyNone
           (set_search_results (Val (fst (format_results t items)))
              (after env q 1)).
Proof.
  intros Hin Hret.
  change (events env q 2)
    with (snd (web_search_agent_node env (after env q 1))) in Hin.
  destruct (search_called env _ query Hin) as (Herr & t & Ht & Hne & ->).
  exists t. split; [exact Ht|].
  rewrite after_2, web_search_cases, Herr, Ht. cbv zeta. simpl get.
  rewrite (truthy_text t Hne). simpl. now rewrite Hret.
Qed.

(** X6. A search that comes back with no item is no error for the search
    stage (it clears [error] and writes the "No search results found."
    text), but the synthesis stage then takes its soft-failure path: it
    does not call the model, stores the canonical answer with its dump,
    and sets the "No valid search results for synthesis." error. *)
Theorem empty_search_soft_fails
  (env : Env) (q query : string) (items : option (list SearchItem)) :
  In (Invoke GoogleSearch query) (events env q 2) ->
  google_search env query = Returns items ->
  items = None \/ items = Some [] ->
  error (after env q 2) = PyNone
  /\ (exists t, search_results (after env q 2)
                = Val ("Search results for part query: " ++ t ++ nl ++ nl
                       ++ "No search results found."))
  /\ events env q 3 = [Log WARNING "No valid search results for synthesis"]
  /\ parsed_oem_info (after env q 3) = Val na_output
  /\ llm_response_json (after env q 3) = Val (model_dump_json env na_output)
  /\ error (after env q 3) = Val "No valid search results for synthesis."
  /\ (forall arg, ~ In (Invoke LLMClient arg) (run_events env q))
  /\ (forall arg, ~ In (Invoke Completion arg) (run_events env q)).
Proof.
  intros Hin Hret Hitems.
  destruct (search_returned env q query items Hin Hret) as (t & Ht & H2).
  assert (Htext : fst (format_results t items)
                  = "Search results for part query: " ++ t ++ nl ++ nl
                    ++ "No search results found.")
    by (rewrite format_results_text; now destruct Hitems as [-> | ->]).
  rewrite Htext in H2.
  assert (Hsoft : synthesize_oem_info_node env (after env q 2)
                  = (set_error (Val "No valid search results for synthesis.")
                       (set_parsed_oem_info (Val na_output)
                          (set_llm_response_json
                             (Val (model_dump_json env na_output))
                             (after env q 2))),
                     [Log WARNING "No valid search results for synthesis"])).
  { rewrite synthesize_cases, H2. cbn [error set_error get truthy].
    assert (Hno : no_valid_search_results
                    (set_error PyNone
                       (set_search_results
                          (Val ("Search results for part query: " ++ t ++ nl ++ nl
                                ++ "No search results found."))
                          (after env q 1))) = true).
    { unfold no_valid_search_results.
      cbn [search_results set_error set_search_results get py_str].
      apply orb_true_iff. right.
      do 4 apply str_contains_app_r. apply str_contains_prefix. reflexivity. }
    now rewrite Hno. }
  assert (Hev : events env q 3 = [Log WARNING "No valid search results for synthesis"]).
  { change (events env q 3)
      with (snd (synthesize_oem_info_node env (after env q 2))).
    now rewrite Hsoft. }
  split; [now rewrite H2|]. split; [exists t; now rewrite H2|].
  split; [exact Hev|].
  rewrite after_3, Hsoft. repeat split.
  - intros arg H. apply run_event_stage in H. simpl stage_of in H.
    rewrite Hev in H. destruct H as [H|[]]. discriminate H.
  - intros arg H. apply run_event_stage in H. simpl stage_of in H.
    rewrite Hev in H. destruct H as [H|[]]. discriminate H.
Qed.

Lemma empty_search_soft_fails_witness :
  In (Invoke GoogleSearch "SKF 6205 manufacturer")
     (events Samples.env_no_results "SKF 6205" 2)
  /\ parsed_oem_info (after Samples.env_no_results "SKF 6205" 3) = Val na_output
  /\ error (after Samples.env_no_results "SKF 6205" 3)
     = Val "No valid search results for synthesis.".
Proof.
  assert (Hin : In (Invoke GoogleSearch "SKF 6205 manufacturer")
                  (events Samples.env_no_results "SKF 6205" 2))
    by (left; reflexivity).
  split; [exact Hin|].
  destruct (empty_search_soft_fails Samples.env_no_results "SKF 6205" _ None
              Hin eq_refl (or_introl eq_refl))
    as (_ & _ & _ & Hp & _ & He & _).
  split; [exact Hp | exact He].
Defined.

(** The search stage's text always holds the translated query. *)
Lemma format_results_holds_query
  (needle t : string) (items : option (list SearchItem)) :
  str_contains needle t = true ->
  str_contains needle (fst (format_results t items)) = true.
Proof.
  intros H. rewrite format_results_text.
  apply str_contains_app_r. now apply str_contains_app_l.
Qed.

(** X7. The synthesis stage tells a failed search from its text, so a
    translated query that itself contains "Error performing search" or
    "No search results found" is never synthesized: whatever the search
    returns, the run makes no call to the model. *)
Theorem sentinel_in_query_blocks_synthesis (env : Env) (q t : string) :
  translated_query (after env q 1) = Val t ->
  str_contains "Error performing search" t = true
  \/ str_contains "No search results found" t = true ->
  (forall arg, ~ In (Invoke LLMClient arg) (run_events env q))
  /\ (forall arg, ~ In (Invoke Completion arg) (run_events env q)).
Proof.
  intros Ht Hsent.
  assert (Hev : events env q 3 = [skip_line "synthesis" (after env q 2)]
                \/ events env q 3
                   = [Log WARNING "No valid search results for synthesis"]).
  { change (events env q 3)
      with (snd (synthesize_oem_info_node env (after env q 2))).
    rewrite synthesize_cases.
    destruct (truthy (get (error (after env q 2)))) eqn:Herr2; [now left|].
    right.
    assert (Hno : no_valid_search_results (after env q 2) = true).
    { revert Herr2. rewrite after_2, web_search_cases, Ht. cbv zeta.
      destruct (truthy (get (error (after env q 1)))) eqn:Herr1.
      - cbn [fst]. intros Herr2. congruence.
      - cbn [get py_str].
        destruct (negb (truthy (Some t))); [discriminate|].
        destruct (google_search env (t ++ " manufacturer")) as [items|e];
          [|discriminate].
        intros _. unfold no_valid_search_results.
        cbn [fst search_results set_error set_search_results get py_str].
        destruct Hsent as [Hs|Hs];
          rewrite (format_results_holds_query _ t items Hs);
          now rewrite ?orb_true_r. }
    now rewrite Hno. }
  split; intros arg H; apply run_event_stage in H; simpl stage_of in H;
    destruct Hev as [Hev|Hev]; rewrite Hev in H;
    destruct H as [H|[]]; discriminate H.
Qed.

Lemma sentinel_in_query_blocks_synthesis_witness :
  translated_query (after Samples.env_ok "No search results found" 1)
  = Val "No search results found"
  /\ forall arg,
       ~ In (Invoke Completion arg)
           (run_events Samples.env_ok "No search results found").
Proof.
  split; [reflexivity|].
  apply (sentinel_in_query_blocks_synthesis Samples.env_ok
           "No search results found" "No search results found" eq_refl
           (or_intror eq_refl)).
Defined.

(** ** The synthesis stage in a run *)

Lemma completion_raised
  (env : Env) (s : PartInfoState.t) (content e : string) :
  In (Invoke Completion content) (snd (synthesize_oem_info_node env s)) ->
  generate_completion env content = Raises e ->
  synthesize_oem_info_node env s
  = (set_error (Val ("LLM synthesis error: " ++ e)) s,
     [Invoke LLMClient EmptyString; Invoke Completion content;
      Log ERROR ("LLM synthesis error: " ++ e)]).
Proof.
  rewrite synthesize_cases. cbv zeta.
  destruct (truthy (get (error s))); [intros H; not_among_logs H|].
  destruct (no_valid_search_results s); [intros H; not_among_logs H|].
  destruct (llm_client env); [|intros H; not_among_logs H].
  destruct (generate_completion env (py_str (get (search_results s))))
    as [answer|e'] eqn:Hcall; intros Hin Hraise;
    simpl in Hin; destruct Hin as [Hin|[Hin|Hin]]; try discriminate Hin;
    try (now not_among_logs Hin); try contradiction;
    injection Hin as <-; rewrite Hcall in Hraise; [discriminate|].
  injection Hraise as ->. reflexivity.
Qed.

(** X8. When the completion request raises, the synthesis stage records
    "LLM synthesis error: ..." and leaves [llm_response_json] and
    [parsed_oem_info] missing; the parser and the vector store are never
    called, the last two stages skip, and the Result is the query with
    ["NA"] in the other fields. *)
Theorem completion_failure_halts_run (env : Env) (q content e : string) :
  In (Invoke Completion content) (events env q 3) ->
  generate_completion env content = Raises e ->
  error (after env q 3) = Val ("LLM synthesis error: " ++ e)
  /\ llm_response_json (after env q 3) = Missing
  /\ parsed_oem_info (after env q 3) = Missing
  /\ after env q 5 = after env q 3
  /\ (forall p arg, In (Invoke p arg) (run_events env q) -> stage_of p <= 3)
  /\ fst (run env q) = Ok (OEMResult.mk q "NA" "NA" "NA" "NA").
Proof.
  intros Hin Hraise.
  change (events env q 3)
    with (snd (synthesize_oem_info_node env (after env q 2))) in Hin.
  pose proof (completion_raised env _ content e Hin Hraise) as Hs.
  destruct (after_search_unparsed env q 2) as [Hllm Hparsed]; [lia|].
  assert (H3 : after env q 3
               = set_error (Val ("LLM synthesis error: " ++ e)) (after env q 2))
    by (now rewrite after_3, Hs).
  assert (Hh : halted (after env q 3) = true).
  { unfold halted. rewrite H3.
    cbn [error llm_response_json parsed_oem_info set_error].
    now rewrite Hllm, Hparsed. }
  split; [now rewrite H3|]. split; [now rewrite H3|]. split; [now rewrite H3|].
  split; [apply halted_after; [lia | lia | exact Hh]|]. split.
  - intros p arg Hp. apply run_event_stage in Hp.
    destruct (Nat.le_gt_cases (stage_of p) 3) as [Hle|Hgt]; [exact Hle|].
    exfalso.
    assert (Hj : 3 < stage_of p <= 5) by (clear - Hgt; destruct p; simpl in *; lia).
    rewrite (halted_events env q 3 (stage_of p)) in Hp; [|lia|exact Hj|exact Hh].
    destruct Hp as [Hp|[]]. discriminate Hp.
  - apply (halted_result env q 3); [lia | exact Hh].
Qed.

Lemma completion_failure_halts_run_witness :
  In (Invoke Completion
        (py_str (get (search_results (after MoreSamples.env_llm_down "SKF 6205" 2)))))
     (events MoreSamples.env_llm_down "SKF 6205" 3)
  /\ fst (run MoreSamples.env_llm_down "SKF 6205")
     = Ok (OEMResult.mk "SKF 6205" "NA" "NA" "NA" "NA").
Proof.
  assert (Hin : In (Invoke Completion
                      (py_str (get (search_results
                                      (after MoreSamples.env_llm_down "SKF 6205" 2)))))
                  (events MoreSamples.env_llm_down "SKF 6205" 3))
    by (right; left; reflexivity).
  split; [exact Hin|].
  apply (completion_failure_halts_run MoreSamples.env_llm_down "SKF 6205" _
           "Rate limit reached" Hin eq_refl).
Defined.

(** ** Errors are never empty *)

Lemma py_or_nonempty (a : option string) (b : string) :
  b <> EmptyString -> py_or a b <> EmptyString.
Proof.
  intros Hb. destruct a as [s|]; simpl; [|exact Hb].
  destruct (String.eqb_spec s EmptyString); [exact Hb | assumption].
Qed.

Lemma store_get_nonempty (v : slot string) :
  v <> Val EmptyString -> store (get v) <> Val EmptyString.
Proof. destruct v; simpl; [discriminate | discriminate | auto]. Qed.

Lemma node_error_nonempty (env : Env) (s : PartInfoState.t) (stage : nat) :
  error s <> Val EmptyString ->
  error (fst (node stage env s)) <> Val EmptyString.
Proof.
  intros H.
  destruct stage as [|[|[|[|[|[|stage]]]]]]; simpl node; try exact H.
  - rewrite translating_cases. cbv zeta.
    destruct (translate_client env);
      [destruct (detect_language env _);
       [destruct (_ =? "en"); [|destruct (translate env _)]|]|];
      discriminate.
  - rewrite web_search_cases. cbv zeta.
    destruct (truthy _); [exact H|].
    destruct (negb _); [discriminate|].
    destruct (google_search env _); discriminate.
  - rewrite synthesize_cases. cbv zeta.
    destruct (truthy _); [exact H|].
    destruct (no_valid_search_results s); [discriminate|].
    destruct (llm_client env); [destruct (generate_completion env _)|];
      discriminate.
  - rewrite parse_cases. cbv zeta.
    destruct (parse_skips s); [exact H|].
    destruct (negb _); [discriminate|].
    destruct (parser_parse env _);
      [cbn [fst error set_error]; now apply store_get_nonempty | discriminate].
  - rewrite vector_search_cases. cbv zeta.
    assert (Hor : forall msg, msg <> EmptyString ->
                    Val (py_or (get (error s)) msg) <> Val EmptyString).
    { intros msg Hmsg Heq. injection Heq as Heq.
      now apply (py_or_nonempty (get (error s)) msg). }
    destruct (vector_search_skips s); [exact H|].
    destruct (vector_store env); [|apply Hor; discriminate].
    destruct (_ =? "na"); [apply Hor; discriminate|].
    destruct (agent_search env _) as [results|e];
      [destruct (top_hit results)|];
      cbn [fst error set_error classified];
      try (now apply store_get_nonempty).
    apply Hor. discriminate.
Qed.

(** X9. In every Record of a run [error] is missing, [None] or a
    non-empty text, never the empty string: so the nodes' truth test on
    [state.get("error")] is false exactly when no error is recorded. *)
Theorem error_is_never_empty (env : Env) (q : string) (stage : nat) :
  error (after env q stage) <> Val EmptyString
  /\ (truthy (get (error (after env q stage))) = false
      <-> get (error (after env q stage)) = None).
Proof.
  assert (H : error (after env q stage) <> Val EmptyString).
  { induction stage as [|k IH]; [discriminate|].
    rewrite after_S. now apply node_error_nonempty. }
  split; [exact H|].
  destruct (error (after env q stage)) as [| |text]; simpl;
    try (split; reflexivity).
  destruct (String.eqb_spec text EmptyString) as [->|Hne];
    [contradiction | split; discriminate].
Qed.

(** ** A run in which every service answers *)

Lemma parse_accepts (env : Env) (s : PartInfoState.t) (raw : string) (o : OEMOutput.t) :
  get (llm_response_json s) = Some raw -> raw <> EmptyString ->
  parser_parse env raw = Returns o ->
  parse_llm_output_node env s
  = (set_error (store (get (error s))) (set_parsed_oem_info (Val o) s),
     [Invoke OutputParser raw]).
Proof.
  intros Hllm Hraw Hparse. rewrite parse_cases. unfold parse_skips.
  rewrite Hllm, (truthy_text raw Hraw), andb_false_r.
  simpl. now rewrite Hparse.
Qed.

(** X10. When the model answers with text the parser accepts, the
    category is not ["na"], and the index returns a top hit whose [family]
    and [family_title] are strings, [run] returns the query, the parsed
    OEM and category, and the hit's family code and title; the parser is
    called on the raw answer, the index is queried with the category, and
    the final Record holds no error. *)
Theorem answered_run_result
  (env : Env) (q content raw : string) (o : OEMOutput.t)
  (results : option QueryResult) (hit : Metadata) (c f : string) :
  In (Invoke Completion content) (events env q 3) ->
  generate_completion env content = Returns (Some raw) ->
  raw <> EmptyString ->
  parser_parse env raw = Returns o ->
  OEMOutput.part_category o <> "na" ->
  vector_store env = Returns tt ->
  agent_search env (OEMOutput.part_category o) = Returns results ->
  top_hit results = Some hit ->
  family hit = Some (PStr c) ->
  family_title hit = Some (PStr f) ->
  fst (run env q)
  = Ok (OEMResult.mk q (OEMOutput.oem o) (OEMOutput.part_category o) c f)
  /\ error (after env q 5) = PyNone
  /\ events env q 4 = [Invoke OutputParser raw]
  /\ events env q 5 = [Invoke VectorStore EmptyString;
                       Invoke VectorQuery (OEMOutput.part_category o)].
Proof.
  intros Hin Hret Hraw Hparse Hcat Hstore Hsearch Hhit Hfam Htitle.
  change (events env q 3)
    with (snd (synthesize_oem_info_node env (after env q 2))) in Hin.
  pose proof (completion_called env _ content (Some raw) Hin Hret) as H3.
  rewrite <- after_3 in H3.
  assert (Hp : parse_llm_output_node env (after env q 3)
               = (set_error PyNone (set_parsed_oem_info (Val o) (after env q 3)),
                  [Invoke OutputParser raw])).
  { rewrite (parse_accepts env _ raw o); trivial; rewrite H3; reflexivity. }
  assert (H4 : after env q 4
               = set_error PyNone (set_parsed_oem_info (Val o) (after env q 3)))
    by (now rewrite after_4, Hp).
  assert (Hv : vector_search_agent_node env (after env q 4)
               = (classified (PStr c) (PStr f) PyNone (after env q 4),
                  [Invoke VectorStore EmptyString;
                   Invoke VectorQuery (OEMOutput.part_category o)])).
  { rewrite vector_search_cases. unfold vector_search_skips.
    assert (Hc : extracted_part_category (after env q 4)
                 = OEMOutput.part_category o) by (now rewrite H4).
    rewrite Hc, Hstore, Hsearch, Hhit, Hfam, Htitle.
    assert (He : error (after env q 4) = PyNone) by (now rewrite H4).
    rewrite He. cbv zeta. cbn [get truthy andb store get_default].
    destruct (String.eqb_spec (OEMOutput.part_category o) "na");
      [contradiction | reflexivity]. }
  assert (H5 : after env q 5 = classified (PStr c) (PStr f) PyNone (after env q 4))
    by (now rewrite after_5, Hv).
  split; [|split; [now rewrite H5|split]].
  - rewrite run_result, H5, from_state_text by reflexivity.
    cbn [classified original_query parsed_oem_info unspsc_code unspsc_family
         set_error set_unspsc_family set_unspsc_code shown get].
    rewrite after_original_query, H4. reflexivity.
  - change (events env q 4)
      with (snd (parse_llm_output_node env (after env q 3))).
    now rewrite Hp.
  - change (events env q 5)
      with (snd (vector_search_agent_node env (after env q 4))).
    now rewrite Hv.
Qed.

Lemma answered_run_result_witness :
  In (Invoke Completion
        (py_str (get (search_results (after Samples.env_ok "SKF 6205" 2)))))
     (events Samples.env_ok "SKF 6205" 3)
  /\ fst (run Samples.env_ok "SKF 6205")
     = Ok (OEMResult.mk "SKF 6205" "skf" "bearings" "31"
             "bearings and bearing devices").
Proof.
  assert (Hin : In (Invoke Completion
                      (py_str (get (search_results
                                      (after Samples.env_ok "SKF 6205" 2)))))
                  (events Samples.env_ok "SKF 6205" 3))
    by (right; left; reflexivity).
  assert (Hraw : Samples.dump_json Samples.skf_output <> EmptyString)
    by discriminate.
  assert (Hcat : OEMOutput.part_category Samples.skf_output <> "na")
    by discriminate.
  split; [exact Hin|].
  apply (answered_run_result Samples.env_ok "SKF 6205" _
           (Samples.dump_json Samples.skf_output) Samples.skf_output
           (Some {| metadatas := Some [[Samples.bearings_hit]] |})
           Samples.bearings_hit "31" "bearings and bearing devices"
           Hin eq_refl Hraw eq_refl Hcat eq_refl eq_refl eq_refl eq_refl eq_refl).
Defined.

(** ** config.py *)

Lemma str_contains_concat (sep name : string) (names : list string) :
  In name names -> str_contains name (String.concat sep names) = true.
Proof.
  induction names as [|x rest IH]; intros H; [contradiction|].
  destruct rest as [|y rest].
  - destruct H as [->|[]]. apply str_contains_refl.
  - change (String.concat sep (x :: y :: rest))
      with (x ++ sep ++ String.concat sep (y :: rest)).
    destruct H as [->|H].
    + apply str_contains_app_l, str_contains_refl.
    + do 2 apply str_contains_app_r. now apply IH.
Qed.

Lemma missing_vars_spec (c : Config.t) (name : string) :
  In name (Config.missing_vars c)
  <-> exists value, In (name, value) (Config.required_vars c)
                    /\ truthy value = false.
Proof.
  unfold Config.missing_vars. rewrite in_map_iff. split.
  - intros ([n v] & <- & H). apply filter_In in H as [H Hv].
    exists v. split; [exact H|]. simpl in Hv. now destruct (truthy v).
  - intros (v & H & Hv). exists (name, v). split; [reflexivity|].
    apply filter_In. split; [exact H|]. simpl. now rewrite Hv.
Qed.

(** X11. [validate_config] returns [True] exactly when the five required
    variables are all set to non-empty values, and then both path getters
    return the configured paths instead of raising. *)
Theorem validate_config_accepts (c : Config.t) :
  (Config.validate_config c = Returns true
   <-> truthy (Config.LLM_API_KEY c) = true
       /\ truthy (Config.GOOGLE_API_KEY c) = true
       /\ truthy (Config.GOOGLE_CX c) = true
       /\ truthy (Config.GOOGLE_SERVICE_ACCOUNT_PATH c) = true
       /\ truthy (Config.VECTORDB_PATH c) = true)
  /\ (Config.validate_config c = Returns true ->
      (exists p, Config.GOOGLE_SERVICE_ACCOUNT_PATH c = Some p
                 /\ Config.get_service_account_path c = Returns p)
      /\ (exists p, Config.VECTORDB_PATH c = Some p
                    /\ Config.get_vectordb_path c = Returns p)).
Proof.
  assert (Hiff : Config.validate_config c = Returns true
                 <-> truthy (Config.LLM_API_KEY c) = true
                     /\ truthy (Config.GOOGLE_API_KEY c) = true
                     /\ truthy (Config.GOOGLE_CX c) = true
                     /\ truthy (Config.GOOGLE_SERVICE_ACCOUNT_PATH c) = true
                     /\ truthy (Config.VECTORDB_PATH c) = true).
  { unfold Config.validate_config, Config.missing_vars, Config.required_vars.
    simpl filter.
    destruct (truthy (Config.LLM_API_KEY c)),
             (truthy (Config.GOOGLE_API_KEY c)),
             (truthy (Config.GOOGLE_CX c)),
             (truthy (Config.GOOGLE_SERVICE_ACCOUNT_PATH c)),
             (truthy (Config.VECTORDB_PATH c)); simpl;
      split; try discriminate; try (intros (? & ? & ? & ? & ?); discriminate);
      try (intros _; repeat split). }
  split; [exact Hiff|]. intros H. apply Hiff in H as (_ & _ & _ & Hs & Hv).
  unfold Config.get_service_account_path, Config.get_vectordb_path.
  cbv zeta. rewrite Hs, Hv. simpl negb. cbv iota.
  destruct (Config.GOOGLE_SERVICE_ACCOUNT_PATH c) as [p1|]; [|discriminate].
  destruct (Config.VECTORDB_PATH c) as [p2|]; [|discriminate].
  split; [exists p1 | exists p2]; split; reflexivity.
Qed.

(** X12. When a required variable is unset or empty, [validate_config]
    raises, and its message names that variable. *)
Theorem validate_config_names_missing
  (c : Config.t) (name : string) (value : option string) :
  In (name, value) (Config.required_vars c) ->
  truthy value = false ->
  exists msg,
    Config.validate_config c = Raises msg
    /\ msg = "Missing required environment variables: "
             ++ String.concat ", " (Config.missing_vars c)
    /\ str_contains name msg = true.
Proof.
  intros Hin Hv.
  assert (Hm : In name (Config.missing_vars c))
    by (apply missing_vars_spec; now exists value).
  unfold Config.validate_config.
  destruct (Config.missing_vars c) as [|x rest] eqn:Hmiss; [contradiction|].
  eexists. split; [reflexivity|]. split; [reflexivity|].
  apply str_contains_app_r. now apply str_contains_concat.
Qed.

Lemma validate_config_names_missing_witness :
  exists msg,
    Config.validate_config
      (Config.mk "llama-3.3-70b-versatile" (Some "key") (Some "key") None
         (Some "/srv/account.json") (Some EmptyString))
    = Raises msg
    /\ msg = "Missing required environment variables: "
             ++ String.concat ", "
                  (Config.missing_vars
                     (Config.mk "llama-3.3-70b-versatile" (Some "key") (Some "key")
                        None (Some "/srv/account.json") (Some EmptyString)))
    /\ str_contains "VECTORDB_PATH" msg = true.
Proof.
  apply (validate_config_names_missing
           (Config.mk "llama-3.3-70b-versatile" (Some "key") (Some "key") None
              (Some "/srv/account.json") (Some EmptyString))
           "VECTORDB_PATH" (Some EmptyString)).
  - do 4 right. left. reflexivity.
  - reflexivity.
Defined.

(** Both missing names, in the order of the list, separated by a comma. *)
Example validate_config_message :
  Config.validate_config
    (Config.mk "llama-3.3-70b-versatile" (Some "key") (Some "key") None
       (Some "/srv/account.json") (Some EmptyString))
  = Raises "Missing required environment variables: GOOGLE_CX, VECTORDB_PATH".
Proof. reflexivity. Qed.

(** ** scripts/setup_vectordb.py *)

Section Batches.
Import SetupVectordb.

Lemma range_from_bounds (fuel start stop step i : nat) :
  In i (range_from fuel start stop step) -> start <= i < stop.
Proof.
  revert start. induction fuel as [|fuel IH]; intros start H; [contradiction|].
  simpl in H. destruct (Nat.ltb_spec start stop) as [Hlt|Hge]; [|contradiction].
  destruct H as [<-|H]; [lia|]. apply IH in H. lia.
Qed.

(** The slices taken at the starts of a range cover what is left of the
    list, in order. *)
Lemma concat_slices {A : Type} (l : list A) (step fuel start : nat) :
  1 <= step -> length l - start <= fuel ->
  concat (map (fun i => slice l i (i + step))
            (range_from fuel start (length l) step))
  = skipn start l.
Proof.
  intros Hstep. revert start.
  induction fuel as [|fuel IH]; intros start Hfuel; simpl.
  - symmetry. apply skipn_all2. lia.
  - destruct (Nat.ltb_spec start (length l)) as [Hlt|Hge].
    + simpl. rewrite IH by lia. unfold slice.
      replace (start + step - start) with step by lia.
      rewrite Nat.add_comm, <- skipn_skipn. apply firstn_skipn.
    + symmetry. apply skipn_all2. lia.
Qed.

Lemma range_from_length (fuel start stop step : nat) :
  1 <= step -> stop - start <= fuel ->
  length (range_from fuel start stop step)
  = if Nat.ltb start stop then (stop - start - 1) / step + 1 else 0.
Proof.
  intros Hstep. revert start.
  induction fuel as [|fuel IH]; intros start Hfuel; simpl.
  - destruct (Nat.ltb_spec start stop); [lia | reflexivity].
  - destruct (Nat.ltb_spec start stop) as [Hlt|Hge]; [|reflexivity].
    simpl. rewrite IH by lia.
    destruct (Nat.ltb_spec (start + step) stop) as [Hlt'|Hge'].
    + replace (stop - start - 1) with (stop - (start + step) - 1 + 1 * step) by lia.
      rewrite Nat.div_add by lia. lia.
    + rewrite Nat.div_small by lia. reflexivity.
Qed.

Lemma slice_length {A : Type} (l : list A) (i j : nat) :
  length (slice l i j) = Nat.min (j - i) (length l - i).
Proof. unfold slice. now rewrite length_firstn, length_skipn. Qed.

Variable E : Type.
Variable encode : list string -> E.
Variable unspsc_data : list Row.

Lemma add_calls_concat {A : Type} (prepared : list A)
  (field : AddCall E -> list A) :
  length prepared = length unspsc_data ->
  (forall i, field {| add_ids := slice (prepared_ids unspsc_data) i (i + batch_size);
                      add_documents :=
                        slice (prepared_documents unspsc_data) i (i + batch_size);
                      add_metadatas :=
                        slice (prepared_metadatas unspsc_data) i (i + batch_size);
                      add_embeddings :=
                        encode (slice (prepared_documents unspsc_data) i
                                  (i + batch_size)) |}
             = slice prepared i (i + batch_size)) ->
  concat (map field (add_calls encode unspsc_data)) = prepared.
Proof.
  intros Hlen Hfield. unfold add_calls. cbv zeta. rewrite map_map.
  rewrite (map_ext _ (fun i => slice prepared i (i + batch_size)) Hfield).
  unfold batch_starts, prepared_documents. rewrite length_map, <- Hlen.
  rewrite concat_slices by (unfold batch_size; lia). reflexivity.
Qed.

(** X13. [create_vectordb] hands the rows to the collection in batches
    that lose and repeat nothing: the ids, documents and metadata of the
    successive [collection.add] calls, put end to end, are the prepared
    lists in order; every call carries between 1 and 100 entries, the
    same number of ids, documents and metadata, and the embeddings of its
    own documents. *)
Theorem batches_partition_the_rows :
  concat (map add_ids (add_calls encode unspsc_data)) = prepared_ids unspsc_data
  /\ concat (map add_documents (add_calls encode unspsc_data))
     = prepared_documents unspsc_data
  /\ concat (map add_metadatas (add_calls encode unspsc_data))
     = prepared_metadatas unspsc_data
  /\ forall call, In call (add_calls encode unspsc_data) ->
       1 <= length (add_ids call) <= 100
       /\ length (add_documents call) = length (add_ids call)
       /\ length (add_metadatas call) = length (add_ids call)
       /\ add_embeddings call = encode (add_documents call).
Proof.
  split; [|split; [|split]].
  - apply add_calls_concat; [|reflexivity].
    unfold prepared_ids. now rewrite length_map, length_seq.
  - apply add_calls_concat; [|reflexivity].
    unfold prepared_documents. now rewrite length_map.
  - apply add_calls_concat; [|reflexivity].
    unfold prepared_metadatas. now rewrite length_map.
  - intros call Hin. unfold add_calls in Hin. cbv zeta in Hin.
    apply in_map_iff in Hin as (i & <- & Hi).
    apply range_from_bounds in Hi. cbn [add_ids add_documents add_metadatas add_embeddings].
    rewrite !slice_length.
    unfold prepared_ids, prepared_documents, prepared_metadatas in *.
    rewrite !length_map, ?length_seq in *. unfold batch_size. repeat split; lia.
Qed.

(** X14. The number of [collection.add] calls is the one the script's
    progress line announces, [(len(documents) - 1) // batch_size + 1], and
    an empty table makes no call at all. *)
Theorem batch_count :
  (unspsc_data = [] -> add_calls encode unspsc_data = [])
  /\ (unspsc_data <> [] ->
      length (add_calls encode unspsc_data)
      = (length (prepared_documents unspsc_data) - 1) / batch_size + 1).
Proof.
  split.
  - intros ->. reflexivity.
  - intros Hne. unfold add_calls. cbv zeta. rewrite length_map.
    unfold batch_starts. rewrite range_from_length by (unfold batch_size; lia).
    assert (Hpos : 0 < length (prepared_documents unspsc_data)).
    { unfold prepared_documents. rewrite length_map.
      destruct unspsc_data; [contradiction | simpl; lia]. }
    destruct (Nat.ltb_spec 0 (length (prepared_documents unspsc_data))); [|lia].
    now rewrite Nat.sub_0_r.
Qed.

End Batches.

Lemma to_uint_nonnil (n : nat) : Nat.to_uint n <> Decimal.Nil.
Proof.
  rewrite <- (DecimalNat.Unsigned.of_to n) at 1.
  rewrite DecimalNat.Unsigned.to_of. apply DecimalFacts.unorm_nonnil.
Qed.

Lemma str_nat_inj (n m : nat) : str_nat n = str_nat m -> n = m.
Proof.
  unfold str_nat. intros H.
  apply DecimalNat.Unsigned.to_uint_inj.
  assert (Hs : Some (Nat.to_uint n) = Some (Nat.to_uint m)).
  { rewrite <- (NilZero.usu _ (to_uint_nonnil n)),
            <- (NilZero.usu _ (to_uint_nonnil m)).
    now rewrite H. }
  now injection Hs.
Qed.

(** X15. The ids [create_vectordb] gives the rows are their positions in
    decimal, [str(i)] for the row at index [i], and no two rows share an
    id. *)
Theorem ids_are_distinct_positions (unspsc_data : list SetupVectordb.Row) :
  NoDup (SetupVectordb.prepared_ids unspsc_data)
  /\ length (SetupVectordb.prepared_ids unspsc_data) = length unspsc_data
  /\ forall i, i < length unspsc_data ->
       nth_error (SetupVectordb.prepared_ids unspsc_data) i = Some (str_nat i).
Proof.
  unfold SetupVectordb.prepared_ids. split; [|split].
  - generalize (seq_NoDup (length unspsc_data) 0).
    generalize (seq 0 (length unspsc_data)).
    induction l as [|x l IH]; intros Hnd; simpl; constructor;
      inversion Hnd as [|? ? Hx Hl]; subst.
    + intros Hin. apply in_map_iff in Hin as (y & Hy & Hin).
      apply str_nat_inj in Hy. now subst.
    + now apply IH.
  - now rewrite length_map, length_seq.
  - intros i Hi. rewrite nth_error_map, nth_error_seq.
    destruct (Nat.ltb_spec i (length unspsc_data)); [reflexivity | lia].
Qed.

(** ** From the table to the Result *)




(** ** cli.py *)










(** ** More runs, end to end *)

Lemma empty_search_synthesis
  (env : Env) (q query : string) (items : option (list SearchItem)) :
  In (Invoke GoogleSearch query) (events env q 2) ->
  google_search env query = Returns items ->
  items = None \/ items = Some [] ->
  after env q 3
  = set_error (Val "No valid search results for synthesis.")
      (set_parsed_oem_info (Val na_output)
         (set_llm_response_json (Val (model_dump_json env na_output))
            (after env q 2))).
Proof.
  intros Hin Hret Hitems.
  destruct (search_returned env q query items Hin Hret) as (t & Ht & H2).
  rewrite after_3, synthesize_cases.
  assert (He : truthy (get (error (after env q 2))) = false) by (now rewrite H2).
  assert (Hno : no_valid_search_results (after env q 2) = true).
  { rewrite H2, format_results_text. unfold no_valid_search_results.
    cbn [search_results set_error set_search_results get py_str].
    apply orb_true_iff. right.
    do 4 apply str_contains_app_r. apply str_contains_prefix.
    now destruct Hitems as [-> | ->]. }
  now rewrite He, Hno.
Qed.

(** X19. After a search with no item the canonical answer is still
    classified: when the parser reads the canonical dump back, the
    category it yields is ["NA"], which is not the ["na"] the
    classification stage tests for, so the index is queried with ["NA"]
    and the Result pairs [oem = "NA"], [part_category = "NA"] with the
    family of whatever entry is nearest to that text; the soft error of
    the synthesis stage is still there at the end. *)
Theorem empty_search_still_classifies
  (env : Env) (q query : string) (items : option (list SearchItem))
  (results : option QueryResult) (hit : Metadata) (c f : string) :
  In (Invoke GoogleSearch query) (events env q 2) ->
  google_search env query = Returns items ->
  items = None \/ items = Some [] ->
  model_dump_json env na_output <> EmptyString ->
  parser_parse env (model_dump_json env na_output) = Returns na_output ->
  vector_store env = Returns tt ->
  agent_search env "NA" = Returns results ->
  top_hit results = Some hit ->
  family hit = Some (PStr c) ->
  family_title hit = Some (PStr f) ->
  In (Invoke VectorQuery "NA") (events env q 5)
  /\ fst (run env q) = Ok (OEMResult.mk q "NA" "NA" c f)
  /\ error (after env q 5) = Val "No valid search results for synthesis.".
Proof.
  intros Hin Hret Hitems Hdump Hparse Hstore Hsearch Hhit Hfam Htitle.
  pose proof (empty_search_synthesis env q query items Hin Hret Hitems) as H3.
  assert (H4 : after env q 4 = after env q 3).
  { rewrite after_4,
      (parse_accepts env (after env q 3) (model_dump_json env na_output) na_output);
      [|now rewrite H3|exact Hdump|exact Hparse].
    rewrite H3. reflexivity. }
  assert (Hv : vector_search_agent_node env (after env q 4)
               = (classified (PStr c) (PStr f)
                    (Val "No valid search results for synthesis.") (after env q 4),
                  [Invoke VectorStore EmptyString; Invoke VectorQuery "NA"])).
  { rewrite vector_search_cases, H4, H3. unfold vector_search_skips.
    cbn [extracted_part_category parsed_oem_info error set_error
         set_parsed_oem_info get OEMOutput.part_category na_output].
    rewrite Hstore. cbv zeta. simpl. now rewrite Hsearch, Hhit, Hfam, Htitle. }
  split; [|split].
  - change (events env q 5)
      with (snd (vector_search_agent_node env (after env q 4))).
    rewrite Hv. right. now left.
  - rewrite run_result, after_5, Hv. cbn [fst].
    rewrite from_state_text by reflexivity.
    cbn [classified original_query parsed_oem_info unspsc_code unspsc_family
         set_error set_unspsc_family set_unspsc_code shown].
    rewrite after_original_query, H4, H3. reflexivity.
  - now rewrite after_5, Hv.
Qed.

Lemma empty_search_still_classifies_witness :
  In (Invoke GoogleSearch "SKF 6205 manufacturer")
     (events Samples.env_no_results "SKF 6205" 2)
  /\ In (Invoke VectorQuery "NA") (events Samples.env_no_results "SKF 6205" 5)
  /\ fst (run Samples.env_no_results "SKF 6205")
     = Ok (OEMResult.mk "SKF 6205" "NA" "NA" "31" "bearings and bearing devices")
  /\ error (after Samples.env_no_results "SKF 6205" 5)
     = Val "No valid search results for synthesis.".
Proof.
  assert (Hin : In (Invoke GoogleSearch "SKF 6205 manufacturer")
                  (events Samples.env_no_results "SKF 6205" 2))
    by (left; reflexivity).
  assert (Hdump : model_dump_json Samples.env_no_results na_output <> EmptyString)
    by discriminate.
  split; [exact Hin|].
  apply (empty_search_still_classifies Samples.env_no_results "SKF 6205" _ None
           (Some {| metadatas := Some [[Samples.bearings_hit]] |})
           Samples.bearings_hit "31" "bearings and bearing devices"
           Hin eq_refl (or_introl eq_refl) Hdump eq_refl eq_refl eq_refl eq_refl
           eq_refl eq_refl).
Defined.

(** X20. When the model returns no text ([None] or the empty string), the
    parsing stage records "No LLM response to parse." without calling the
    parser, the classification stage skips, and the Result is the query
    with ["NA"] in the other fields. *)
Theorem empty_completion_gives_NA
  (env : Env) (q content : string) (answer : option string) :
  In (Invoke Completion content) (events env q 3) ->
  generate_completion env content = Returns answer ->
  answer = None \/ answer = Some EmptyString ->
  error (after env q 3) = PyNone
  /\ events env q 4 = [Log ERROR "No LLM response to parse."]
  /\ error (after env q 4) = Val "No LLM response to parse."
  /\ events env q 5 = [skip_line "vector search" (after env q 4)]
  /\ fst (run env q) = Ok (OEMResult.mk q "NA" "NA" "NA" "NA").
Proof.
  intros Hin Hret Hanswer.
  change (events env q 3)
    with (snd (synthesize_oem_info_node env (after env q 2))) in Hin.
  pose proof (completion_called env _ content answer Hin Hret) as H3.
  rewrite <- after_3 in H3.
  destruct (after_search_unparsed env q 2) as [_ Hparsed2]; [lia|].
  destruct (after_taxonomy_missing env q 4) as [Hcode Hfam]; [lia|].
  assert (Hp : parse_llm_output_node env (after env q 3)
               = (set_error (Val "No LLM response to parse.") (after env q 3),
                  [Log ERROR "No LLM response to parse."])).
  { rewrite parse_cases, H3. unfold parse_skips.
    cbn [error llm_response_json set_error set_llm_response_json get truthy andb].
    now destruct Hanswer as [-> | ->]. }
  assert (H4 : after env q 4
               = set_error (Val "No LLM response to parse.") (after env q 3))
    by (now rewrite after_4, Hp).
  assert (Hparsed4 : parsed_oem_info (after env q 4) = Missing)
    by (now rewrite H4, H3).
  assert (Hskip : vector_search_skips (after env q 4) = true).
  { unfold vector_search_skips. rewrite Hparsed4, H4. reflexivity. }
  assert (H5 : after env q 5 = after env q 4)
    by (now rewrite after_5, vector_search_skip).
  split; [now rewrite H3|]. split.
  { change (events env q 4)
      with (snd (parse_llm_output_node env (after env q 3))).
    now rewrite Hp. }
  split; [now rewrite H4|]. split.
  { change (events env q 5)
      with (snd (vector_search_agent_node env (after env q 4))).
    now rewrite vector_search_skip. }
  rewrite run_result, H5, from_state_text by (now rewrite ?Hcode, ?Hfam).
  rewrite Hparsed4, Hcode, Hfam, after_original_query. reflexivity.
Qed.

Lemma empty_completion_gives_NA_witness :
  In (Invoke Completion
        (py_str (get (search_results
                        (after (Samples.with_generate_completion
                                  (fun _ => Returns None) Samples.env_ok)
                           "SKF 6205" 2)))))
     (events (Samples.with_generate_completion (fun _ => Returns None)
                Samples.env_ok) "SKF 6205" 3)
  /\ fst (run (Samples.with_generate_completion (fun _ => Returns None)
                 Samples.env_ok) "SKF 6205")
     = Ok (OEMResult.mk "SKF 6205" "NA" "NA" "NA" "NA").
Proof.
  assert (Hin : In (Invoke Completion
                      (py_str (get (search_results
                                      (after (Samples.with_generate_completion
                                                (fun _ => Returns None) Samples.env_ok)
                                         "SKF 6205" 2)))))
                  (events (Samples.with_generate_completion (fun _ => Returns None)
                             Samples.env_ok) "SKF 6205" 3))
    by (right; left; reflexivity).
  split; [exact Hin|].
  apply (empty_completion_gives_NA
           (Samples.with_generate_completion (fun _ => Returns None) Samples.env_ok)
           "SKF 6205" _ None Hin eq_refl (or_introl eq_refl)).
Defined.

(** X21. A failure of the vector store does not cost the OEM: when the
    answer was parsed without a prior error and the classification stage's
    exchange with the store raises, the Result still carries the parsed
    [oem] and [part_category], shows ["NA"] for the two taxonomy fields,
    and the final error is the vector-search failure. *)
Theorem index_failure_keeps_oem
  (env : Env) (q content raw e : string) (o : OEMOutput.t) :
  In (Invoke Completion content) (events env q 3) ->
  generate_completion env content = Returns (Some raw) ->
  raw <> EmptyString ->
  parser_parse env raw = Returns o ->
  fst (vector_search_body env (after env q 4)) = Raises e ->
  fst (run env q)
  = Ok (OEMResult.mk q (OEMOutput.oem o) (OEMOutput.part_category o) "NA" "NA")
  /\ error (after env q 5) = Val ("Vector search error: " ++ e).
Proof.
  intros Hin Hret Hraw Hparse Hraise.
  change (events env q 3)
    with (snd (synthesize_oem_info_node env (after env q 2))) in Hin.
  pose proof (completion_called env _ content (Some raw) Hin Hret) as H3.
  rewrite <- after_3 in H3.
  destruct (after_taxonomy_missing env q 4) as [Hcode Hfam]; [lia|].
  assert (H4 : after env q 4
               = set_error PyNone (set_parsed_oem_info (Val o) (after env q 3))).
  { rewrite after_4, (parse_accepts env _ raw o); trivial; rewrite H3; reflexivity. }
  assert (Hp4 : parsed_oem_info (after env q 4) = Val o) by (now rewrite H4).
  assert (He4 : error (after env q 4) = PyNone) by (now rewrite H4).
  assert (H5 : after env q 5
               = set_error (Val ("Vector search error: " ++ e)) (after env q 4)).
  { rewrite after_5. unfold vector_search_agent_node, vector_search_skips.
    rewrite He4. cbn [get truthy andb]. unfold try_except.
    destruct (vector_search_body env (after env q 4)) as [[s'|e'] l];
      simpl in Hraise; [discriminate|].
    injection Hraise as ->. unfold bind, log, ret. reflexivity. }
  split; [|now rewrite H5].
  rewrite run_result, H5, from_state_text
    by (cbn [unspsc_code unspsc_family set_error]; now rewrite ?Hcode, ?Hfam).
  cbn [original_query parsed_oem_info unspsc_code unspsc_family set_error].
  now rewrite Hp4, Hcode, Hfam, after_original_query.
Qed.

Lemma index_failure_keeps_oem_witness :
  In (Invoke Completion
        (py_str (get (search_results (after Samples.env_store_down "SKF 6205" 2)))))
     (events Samples.env_store_down "SKF 6205" 3)
  /\ fst (run Samples.env_store_down "SKF 6205")
     = Ok (OEMResult.mk "SKF 6205" "skf" "bearings" "NA" "NA")
  /\ error (after Samples.env_store_down "SKF 6205" 5)
     = Val ("Vector search error: "
            ++ "VECTORDB_PATH is not set in the environment variables.").
Proof.
  assert (Hin : In (Invoke Completion
                      (py_str (get (search_results
                                      (after Samples.env_store_down "SKF 6205" 2)))))
                  (events Samples.env_store_down "SKF 6205" 3))
    by (right; left; reflexivity).
  assert (Hraw : Samples.dump_json Samples.skf_output <> EmptyString)
    by discriminate.
  split; [exact Hin|].
  apply (index_failure_keeps_oem Samples.env_store_down "SKF 6205" _
           (Samples.dump_json Samples.skf_output)
           "VECTORDB_PATH is not set in the environment variables."
           Samples.skf_output Hin eq_refl Hraw eq_refl eq_refl).
Defined.
